(** * stack-kubernetes-remote: packager, modifier and trait reconciler

    A shallow embedding of

    - [pkg/controller/containerizedworkload]: [containerizedWorkloadPackager]
      and [manualScalerModifier];
    - [pkg/reconciler/workload]: [genericPackager];
    - [pkg/reconciler/trait]: [Reconciler.Reconcile];

    together with the parts of the Kubernetes and Crossplane libraries these
    functions call.  Go pointers are [option]s ([None] is [nil]), a Go [error]
    is an [option error], slices are lists, Go maps are [gmap]s (a [nil] map is
    [None]), [int32] values are [Z].  A function that can fault at run time
    returns an [Outcome]. *)

From Stdlib Require Import ZArith.
From stdpp Require Import base strings list gmap.

Local Open Scope string_scope.
Local Open Scope list_scope.

(** ** Run-time faults *)

Inductive Outcome (A : Type) : Type :=
| Returned (a : A)
| Panicked (reason : string).
Arguments Returned {A} a.
Arguments Panicked {A} reason.

Definition obind {A B} (m : Outcome A) (k : A -> Outcome B) : Outcome B :=
  match m with
  | Returned a => k a
  | Panicked r => Panicked r
  end.

Notation "x <-! m ; k" := (obind m (fun x => k))
  (at level 100, m at next level, right associativity, only parsing).

Definition panicNilMap : string := "assignment to entry in nil map".
Definition panicNilDeref : string :=
  "invalid memory address or nil pointer dereference".

(** [m[k] = v] on a Go map: a write to a nil map panics. *)
Definition mapAssign (m : option (gmap string string)) (k v : string)
  : Outcome (option (gmap string string)) :=
  match m with
  | None => Panicked panicNilMap
  | Some m' => Returned (Some (<[k := v]> m'))
  end.

(** [*p] on a Go pointer. *)
Definition deref {A} (p : option A) : Outcome A :=
  match p with
  | Some a => Returned a
  | None => Panicked panicNilDeref
  end.

(** ** Errors: github.com/pkg/errors and k8s.io/apimachinery/pkg/api/errors *)

Inductive StatusReason := StatusReasonUnknown | StatusReasonNotFound
                        | StatusReasonConflict | StatusReasonTimeout.

Inductive error : Type :=
| ErrorString (msg : string)                      (* errors.New *)
| StatusError (reason : StatusReason) (msg : string) (* kerrors.StatusError *)
| WithMessage (cause : error) (msg : string).     (* errors.Wrap *)

Module errors.

Definition New (msg : string) : option error := Some (ErrorString msg).

(** [Wrap] annotates [err] with [msg]; wrapping [nil] gives [nil]. *)
Definition Wrap (err : option error) (msg : string) : option error :=
  match err with
  | None => None
  | Some e => Some (WithMessage e msg)
  end.

Fixpoint Error (e : error) : string :=
  match e with
  | ErrorString msg => msg
  | StatusError _ msg => msg
  | WithMessage cause msg => msg +:+ ": " +:+ Error cause
  end.

End errors.

Module kerrors.

(** [ReasonForError] looks at the error value itself (apimachinery 0.17 does
    not unwrap): only a status error carries a reason. *)
Definition ReasonForError (err : option error) : StatusReason :=
  match err with
  | Some (StatusError r _) => r
  | _ => StatusReasonUnknown
  end.

Definition IsNotFound (err : option error) : bool :=
  match ReasonForError err with
  | StatusReasonNotFound => true
  | _ => false
  end.

(** [NewNotFound]; the message text plays no part (the library also puts
    the resource and quotes around the name). *)
Definition NewNotFound (name : string) : option error :=
  Some (StatusError StatusReasonNotFound (name +:+ " not found")).

End kerrors.

Module resource.

Definition Ignore (is_ : option error -> bool) (err : option error)
  : option error :=
  if is_ err then None else err.

Definition IgnoreNotFound (err : option error) : option error :=
  Ignore kerrors.IsNotFound err.

End resource.

(** ** Object metadata *)

Record OwnerReference := {
  or_Kind : string;
  or_Name : string;
  or_UID : string;
  or_Controller : option bool;
}.

Record ObjectMeta := {
  Name : string;
  Namespace : string;
  UID : string;
  ResourceVersion : string;
  OwnerReferences : list OwnerReference;
}.

Definition emptyMeta : ObjectMeta :=
  {| Name := ""; Namespace := ""; UID := ""; ResourceVersion := "";
     OwnerReferences := [] |}.

Record ObjectReference := {
  ref_Kind : string;
  ref_Namespace : string;
  ref_Name : string;
}.

Definition emptyRef : ObjectReference :=
  {| ref_Kind := ""; ref_Namespace := ""; ref_Name := "" |}.

Record NamespacedName := {
  nn_Namespace : string;
  nn_Name : string;
}.

(** ** Conditions: crossplane-runtime/apis/core/v1alpha1

    [LastTransitionTime] is left out: [Condition.Equal] ignores it and no
    decision of the reconciler reads it. *)

Module v1alpha1.

Inductive ConditionType := TypeReady | TypeSynced.
Inductive ConditionStatus := ConditionTrue | ConditionFalse | ConditionUnknown.


(** The two reasons a resource is or is not synced; any other reason is
    kept as its text. *)
Inductive ConditionReason :=
| ReasonReconcileSuccess
| ReasonReconcileError
| ReasonText (s : string).

Record Condition := {
  Type_ : ConditionType;
  Status : ConditionStatus;
  Reason : ConditionReason;
  Message : string;
}.

#[export] Instance ConditionType_eq_dec : EqDecision ConditionType.
Proof. solve_decision. Defined.
#[export] Instance ConditionStatus_eq_dec : EqDecision ConditionStatus.
Proof. solve_decision. Defined.
#[export] Instance ConditionReason_eq_dec : EqDecision ConditionReason.
Proof. solve_decision. Defined.
#[export] Instance Condition_eq_dec : EqDecision Condition.
Proof. solve_decision. Defined.

Definition ReconcileSuccess : Condition :=
  {| Type_ := TypeSynced; Status := ConditionTrue;
     Reason := ReasonReconcileSuccess; Message := "" |}.

(** [ReconcileError] is only called with a non-nil error. *)
Definition ReconcileError (err : error) : Condition :=
  {| Type_ := TypeSynced; Status := ConditionFalse;
     Reason := ReasonReconcileError; Message := errors.Error err |}.

Definition ConditionedStatus := list Condition.

(** The inner loop of [SetConditions]: every existing condition of the new
    condition's type is overwritten (an equal one is kept, which is the same
    value); [exists] records whether one was seen. *)
Fixpoint setExisting (new : Condition) (cs : list Condition) (exists_ : bool)
  : list Condition * bool :=
  match cs with
  | [] => ([], exists_)
  | existing :: rest =>
      if decide (Type_ existing = Type_ new) then
        if decide (existing = new) then
          let '(rest', ex) := setExisting new rest true in
          (existing :: rest', ex)
        else
          let '(rest', ex) := setExisting new rest true in
          (new :: rest', ex)
      else
        let '(rest', ex) := setExisting new rest exists_ in
        (existing :: rest', ex)
  end.

Definition setCondition (s : ConditionedStatus) (new : Condition)
  : ConditionedStatus :=
  let '(cs, ex) := setExisting new s false in
  if ex then cs else cs ++ [new].

Definition SetConditions (s : ConditionedStatus) (c : list Condition)
  : ConditionedStatus :=
  foldl setCondition s c.

Fixpoint GetCondition (s : ConditionedStatus) (ct : ConditionType)
  : Condition :=
  match s with
  | [] => {| Type_ := ct; Status := ConditionUnknown;
             Reason := ReasonText ""; Message := "" |}
  | c :: rest => if decide (Type_ c = ct) then c else GetCondition rest ct
  end.

End v1alpha1.

(** ** Target schema: k8s.io/api/core/v1 and apps/v1

    Only the fields the packager and the modifier touch are kept. *)

Module corev1.

Record LocalObjectReference := { lor_Name : string }.

Record ContainerPort := {
  cp_Name : string;
  cp_ContainerPort : Z;
  cp_Protocol : string;
}.

Record EnvVar := { ev_Name : string; ev_Value : string }.

Record HTTPHeader := { hh_Name : string; hh_Value : string }.

(** [intstr.IntOrString]; the packager only ever sets [IntVal]. *)
Record IntOrString := { ios_IsString : bool; IntVal : Z; StrVal : string }.

Definition IntOrString_IntVal (n : Z) : IntOrString :=
  {| ios_IsString := false; IntVal := n; StrVal := "" |}.

Record HTTPGetAction := {
  hg_Path : string;
  hg_Port : IntOrString;
  hg_HTTPHeaders : list HTTPHeader;
}.

Record ExecAction := { ex_Command : list string }.

Record TCPSocketAction := { tcp_Port : IntOrString }.

Record Handler := {
  Exec : option ExecAction;
  HTTPGet : option HTTPGetAction;
  TCPSocket : option TCPSocketAction;
}.

Record Probe := {
  pr_Handler : Handler;
  InitialDelaySeconds : Z;
  TimeoutSeconds : Z;
  PeriodSeconds : Z;
  SuccessThreshold : Z;
  FailureThreshold : Z;
}.

Record VolumeMount := {
  vm_Name : string;
  vm_ReadOnly : bool;
  vm_MountPath : string;
}.

Definition ResourceCPU : string := "cpu".
Definition ResourceMemory : string := "memory".

(** [resource.Quantity] values are copied, never inspected. *)
Definition Quantity := string.

Record ResourceRequirements := {
  Requests : option (gmap string Quantity);
}.

Record Container := {
  c_Name : string;
  c_Image : string;
  c_Command : list string;
  c_Args : list string;
  c_Resources : ResourceRequirements;
  c_Ports : list ContainerPort;
  c_Env : list EnvVar;
  c_LivenessProbe : option Probe;
  c_ReadinessProbe : option Probe;
  c_VolumeMounts : list VolumeMount;
}.

Record PodSpec := {
  NodeSelector : option (gmap string string);
  ImagePullSecrets : list LocalObjectReference;
  Containers : list Container;
}.

End corev1.

Module appsv1.

(** [d.Spec.Replicas] and [d.Spec.Template.Spec]. *)
Record Deployment := {
  d_Kind : string;
  d_APIVersion : string;
  d_Meta : ObjectMeta;
  Replicas : option Z;
  PodSpec : corev1.PodSpec;
}.

(** [&appsv1.Deployment{}]: every field has its zero value; in particular the
    node selector is a nil map. *)
Definition zero : Deployment :=
  {| d_Kind := ""; d_APIVersion := ""; d_Meta := emptyMeta; Replicas := None;
     PodSpec := {| corev1.NodeSelector := None;
                   corev1.ImagePullSecrets := [];
                   corev1.Containers := [] |} |}.

Definition setReplicas (d : Deployment) (n : option Z) : Deployment :=
  {| d_Kind := d_Kind d; d_APIVersion := d_APIVersion d; d_Meta := d_Meta d;
     Replicas := n; PodSpec := PodSpec d |}.

Definition setPodSpec (d : Deployment) (ps : corev1.PodSpec) : Deployment :=
  {| d_Kind := d_Kind d; d_APIVersion := d_APIVersion d; d_Meta := d_Meta d;
     Replicas := Replicas d; PodSpec := ps |}.

Definition setNodeSelector (d : Deployment) (m : option (gmap string string))
  : Deployment :=
  setPodSpec d {| corev1.NodeSelector := m;
                  corev1.ImagePullSecrets := corev1.ImagePullSecrets (PodSpec d);
                  corev1.Containers := corev1.Containers (PodSpec d) |}.

Definition setImagePullSecrets (d : Deployment)
  (l : list corev1.LocalObjectReference) : Deployment :=
  setPodSpec d {| corev1.NodeSelector := corev1.NodeSelector (PodSpec d);
                  corev1.ImagePullSecrets := l;
                  corev1.Containers := corev1.Containers (PodSpec d) |}.

Definition setContainers (d : Deployment) (l : list corev1.Container)
  : Deployment :=
  setPodSpec d {| corev1.NodeSelector := corev1.NodeSelector (PodSpec d);
                  corev1.ImagePullSecrets := corev1.ImagePullSecrets (PodSpec d);
                  corev1.Containers := l |}.

End appsv1.

(** ** Source schema: crossplane/apis/oam/v1alpha2 *)

Module oamv1alpha2.

Record ContainerPort := {
  cp_Name : string;
  cp_Port : Z;
  cp_Protocol : option string;
}.

Record ContainerEnvVar := { ev_Name : string; ev_Value : string }.

Record HTTPHeader := { hh_Name : string; hh_Value : string }.

Record HTTPGetAction := {
  hg_Path : string;
  hg_Port : Z;
  hg_HTTPHeaders : list HTTPHeader;
}.

Record ExecAction := { ex_Command : list string }.

Record TCPSocketAction := { tcp_Port : Z }.

Record ContainerHealthProbe := {
  Exec : option ExecAction;
  HTTPGet : option HTTPGetAction;
  TCPSocket : option TCPSocketAction;
  InitialDelaySeconds : option Z;
  PeriodSeconds : option Z;
  TimeoutSeconds : option Z;
  SuccessThreshold : option Z;
  FailureThreshold : option Z;
}.

Definition VolumeAccessModeRO : string := "RO".
Definition VolumeAccessModeRW : string := "RW".

Record VolumeResource := {
  v_Name : string;
  v_MouthPath : string;
  v_AccessMode : option string;
}.

Record ContainerResources := {
  CPU_Required : corev1.Quantity;
  Memory_Required : corev1.Quantity;
  Volumes : list VolumeResource;
}.

Record Container := {
  c_Name : string;
  c_Image : string;
  c_Resources : ContainerResources;
  c_Command : list string;
  c_Arguments : list string;
  c_Environment : list ContainerEnvVar;
  c_Ports : list ContainerPort;
  c_LivenessProbe : option ContainerHealthProbe;
  c_ReadinessProbe : option ContainerHealthProbe;
  c_ImagePullSecret : option string;
}.

Record ContainerizedWorkload := {
  cw_Meta : ObjectMeta;
  OperatingSystem : option string;
  CPUArchitecture : option string;
  Containers : list Container;
}.

End oamv1alpha2.

(** ** Traits

    [trait.Trait] is an interface: a conditioned object with metadata and a
    workload reference.  The objects that implement it here are the manual
    scaler trait and the test package's fake; the dynamic type is the tag
    [t_Spec]. *)

Inductive TraitSpec :=
| ManualScalerSpec (ReplicaCount : Z)
| FakeSpec.

Record Trait := {
  t_Meta : ObjectMeta;
  t_Status : v1alpha1.ConditionedStatus;
  t_WorkloadRef : ObjectReference;
  t_Spec : TraitSpec;
}.

Definition Trait_SetConditions (t : Trait) (c : list v1alpha1.Condition)
  : Trait :=
  {| t_Meta := t_Meta t;
     t_Status := v1alpha1.SetConditions (t_Status t) c;
     t_WorkloadRef := t_WorkloadRef t;
     t_Spec := t_Spec t |}.

Definition Trait_GetCondition (t : Trait) (ct : v1alpha1.ConditionType)
  : v1alpha1.Condition :=
  v1alpha1.GetCondition (t_Status t) ct.

(** ** Fragments: apimachinery's unstructured documents *)

Module unstructured.

#[warnings="-register-all"]
Inductive Value :=
| VNull
| VBool (b : bool)
| VInt (n : Z)
| VString (s : string)
| VList (l : list Value)
| VMap (m : gmap string Value).

Record Unstructured := { Object : gmap string Value }.

(** [GetKind] is the string under "kind", or the empty string when the key
    is missing or holds something else. *)
Definition GetKind (u : Unstructured) : string :=
  match Object u !! "kind" with
  | Some (VString k) => k
  | _ => ""
  end.

End unstructured.

(** ** The aggregate: crossplane/apis/workload/v1alpha1.KubernetesApplication

    A resource template holds its document behind a pointer which the
    resource schema requires to be set; it is modelled as always present. *)

Module workloadv1alpha1.

Record KubernetesApplicationResourceTemplate := {
  rt_Meta : ObjectMeta;
  Template : unstructured.Unstructured;
  Secrets : list corev1.LocalObjectReference;
}.

Record KubernetesApplication := {
  app_Meta : ObjectMeta;
  ResourceTemplates : list KubernetesApplicationResourceTemplate;
}.

Definition zero : KubernetesApplication :=
  {| app_Meta := emptyMeta; ResourceTemplates := [] |}.

Definition setResourceTemplates (app : KubernetesApplication)
  (l : list KubernetesApplicationResourceTemplate) : KubernetesApplication :=
  {| app_Meta := app_Meta app; ResourceTemplates := l |}.

Definition setTemplate (rt : KubernetesApplicationResourceTemplate)
  (u : unstructured.Unstructured) : KubernetesApplicationResourceTemplate :=
  {| rt_Meta := rt_Meta rt; Template := u; Secrets := Secrets rt |}.

Definition setMeta (app : KubernetesApplication) (m : ObjectMeta)
  : KubernetesApplication :=
  {| app_Meta := m; ResourceTemplates := ResourceTemplates app |}.

End workloadv1alpha1.

(** ** runtime.Object and the unstructured converter *)

Inductive Object :=
| ObjContainerizedWorkload (cw : oamv1alpha2.ContainerizedWorkload)
| ObjTrait (t : Trait)
| ObjDeployment (d : appsv1.Deployment).

(** [runtime.DefaultUnstructuredConverter] is a value of the interface
    [runtime.UnstructuredConverter].  [FromUnstructured] fills the object it
    is handed; the repository only ever decodes into a deployment. *)
Class UnstructuredConverter := {
  ToUnstructured : Object -> gmap string unstructured.Value * option error;
  FromUnstructured :
    gmap string unstructured.Value -> appsv1.Deployment
    -> appsv1.Deployment * option error;
}.

(** ** pkg/reconciler/workload: the generic packager *)

Module workload.

Section Packager.
Context `{conv : UnstructuredConverter}.

(** [genericPackager] encodes the object and appends it as one more resource
    template. *)
Definition genericPackager (app : workloadv1alpha1.KubernetesApplication)
  (obj : Object) : workloadv1alpha1.KubernetesApplication * option error :=
  match ToUnstructured obj with
  | (_, Some err) => (app, Some err)
  | (u, None) =>
      let kart :=
        {| workloadv1alpha1.rt_Meta := emptyMeta;
           workloadv1alpha1.Template := {| unstructured.Object := u |};
           workloadv1alpha1.Secrets := [] |} in
      (workloadv1alpha1.setResourceTemplates app
         (workloadv1alpha1.ResourceTemplates app ++ [kart]), None)
  end.

End Packager.

End workload.

(** ** pkg/controller/containerizedworkload *)

Module containerizedworkload.

Definition errNotContainerizedWorkload : string :=
  "object is not a containerized workload".
Definition errNotManualScalerTrait : string := "trait is not a manual scaler".

(** The loop over [container.Ports]: the protocol pointer is dereferenced
    without a nil test. *)
Fixpoint packagePorts (ps : list oamv1alpha2.ContainerPort)
  (acc : list corev1.ContainerPort) : Outcome (list corev1.ContainerPort) :=
  match ps with
  | [] => Returned acc
  | p :: rest =>
      proto <-! deref (oamv1alpha2.cp_Protocol p);
      packagePorts rest
        (acc ++ [ {| corev1.cp_Name := oamv1alpha2.cp_Name p;
                     corev1.cp_ContainerPort := oamv1alpha2.cp_Port p;
                     corev1.cp_Protocol := proto |} ])
  end.

(** The loop over [container.Environment] appends one variable per entry. *)
Definition packageEnv (es : list oamv1alpha2.ContainerEnvVar)
  : list corev1.EnvVar :=
  map (fun e => {| corev1.ev_Name := oamv1alpha2.ev_Name e;
                   corev1.ev_Value := oamv1alpha2.ev_Value e |}) es.

Definition packageHeaders (hs : list oamv1alpha2.HTTPHeader)
  : list corev1.HTTPHeader :=
  map (fun h => {| corev1.hh_Name := oamv1alpha2.hh_Name h;
                   corev1.hh_Value := oamv1alpha2.hh_Value h |}) hs.

(** The body of [if container.LivenessProbe != nil] and of its readiness
    twin, which the source writes out twice: timing fields are copied when
    set and stay zero otherwise, and every handler that is present is set. *)
Definition packageProbe (p : oamv1alpha2.ContainerHealthProbe)
  : corev1.Probe :=
  {| corev1.pr_Handler :=
       {| corev1.Exec :=
            match oamv1alpha2.Exec p with
            | Some e => Some {| corev1.ex_Command := oamv1alpha2.ex_Command e |}
            | None => None
            end;
          corev1.HTTPGet :=
            match oamv1alpha2.HTTPGet p with
            | Some g =>
                Some {| corev1.hg_Path := oamv1alpha2.hg_Path g;
                        corev1.hg_Port :=
                          corev1.IntOrString_IntVal (oamv1alpha2.hg_Port g);
                        corev1.hg_HTTPHeaders :=
                          packageHeaders (oamv1alpha2.hg_HTTPHeaders g) |}
            | None => None
            end;
          corev1.TCPSocket :=
            match oamv1alpha2.TCPSocket p with
            | Some s =>
                Some {| corev1.tcp_Port :=
                          corev1.IntOrString_IntVal (oamv1alpha2.tcp_Port s) |}
            | None => None
            end |};
     corev1.InitialDelaySeconds := default 0%Z (oamv1alpha2.InitialDelaySeconds p);
     corev1.TimeoutSeconds := default 0%Z (oamv1alpha2.TimeoutSeconds p);
     corev1.PeriodSeconds := default 0%Z (oamv1alpha2.PeriodSeconds p);
     corev1.SuccessThreshold := default 0%Z (oamv1alpha2.SuccessThreshold p);
     corev1.FailureThreshold := default 0%Z (oamv1alpha2.FailureThreshold p) |}.

(** The loop over [container.Resources.Volumes]. *)
Definition packageVolumes (vs : list oamv1alpha2.VolumeResource)
  : list corev1.VolumeMount :=
  map (fun v =>
         {| corev1.vm_Name := oamv1alpha2.v_Name v;
            corev1.vm_ReadOnly :=
              match oamv1alpha2.v_AccessMode v with
              | Some m => bool_decide (m = oamv1alpha2.VolumeAccessModeRO)
              | None => false
              end;
            corev1.vm_MountPath := oamv1alpha2.v_MouthPath v |}) vs.

(** One iteration of the loop over [cw.Spec.Containers]. *)
Definition packageContainer (d : appsv1.Deployment)
  (container : oamv1alpha2.Container) : Outcome appsv1.Deployment :=
  let d1 :=
    match oamv1alpha2.c_ImagePullSecret container with
    | Some s =>
        appsv1.setImagePullSecrets d
          (corev1.ImagePullSecrets (appsv1.PodSpec d)
             ++ [ {| corev1.lor_Name := s |} ])
    | None => d
    end in
  ports <-! packagePorts (oamv1alpha2.c_Ports container) [];
  let kubernetesContainer :=
    {| corev1.c_Name := oamv1alpha2.c_Name container;
       corev1.c_Image := oamv1alpha2.c_Image container;
       corev1.c_Command := oamv1alpha2.c_Command container;
       corev1.c_Args := oamv1alpha2.c_Arguments container;
       corev1.c_Resources :=
         {| corev1.Requests :=
              Some (<[corev1.ResourceCPU :=
                        oamv1alpha2.CPU_Required
                          (oamv1alpha2.c_Resources container)]>
                    (<[corev1.ResourceMemory :=
                         oamv1alpha2.Memory_Required
                           (oamv1alpha2.c_Resources container)]> ∅)) |};
       corev1.c_Ports := ports;
       corev1.c_Env := packageEnv (oamv1alpha2.c_Environment container);
       corev1.c_LivenessProbe :=
         packageProbe <$> oamv1alpha2.c_LivenessProbe container;
       corev1.c_ReadinessProbe :=
         packageProbe <$> oamv1alpha2.c_ReadinessProbe container;
       corev1.c_VolumeMounts :=
         packageVolumes
           (oamv1alpha2.Volumes (oamv1alpha2.c_Resources container)) |} in
  Returned
    (appsv1.setContainers d1
       (corev1.Containers (appsv1.PodSpec d1) ++ [kubernetesContainer])).

Fixpoint packageContainers (cs : list oamv1alpha2.Container)
  (d : appsv1.Deployment) : Outcome appsv1.Deployment :=
  match cs with
  | [] => Returned d
  | container :: rest =>
      d' <-! packageContainer d container;
      packageContainers rest d'
  end.

(** [d.Spec.Template.Spec.NodeSelector[key] = *sel] under [if sel != nil]. *)
Definition selectNode (d : appsv1.Deployment) (key : string)
  (sel : option string) : Outcome appsv1.Deployment :=
  match sel with
  | Some v =>
      m <-! mapAssign (corev1.NodeSelector (appsv1.PodSpec d)) key v;
      Returned (appsv1.setNodeSelector d m)
  | None => Returned d
  end.

(** The local deployment [d] of [containerizedWorkloadPackager] as it stands
    when the function reaches its final [return nil]. *)
Definition packagedDeployment (cw : oamv1alpha2.ContainerizedWorkload)
  : Outcome appsv1.Deployment :=
  let d := appsv1.zero in
  d1 <-! selectNode d "beta.kubernetes.io/os" (oamv1alpha2.OperatingSystem cw);
  d2 <-! selectNode d1 "kubernetes.io/arch" (oamv1alpha2.CPUArchitecture cw);
  packageContainers (oamv1alpha2.Containers cw) d2.

(** [containerizedWorkloadPackager]: the deployment is built and then goes out
    of scope; [app] is never written. *)
Definition containerizedWorkloadPackager
  (app : workloadv1alpha1.KubernetesApplication) (obj : Object)
  : Outcome (workloadv1alpha1.KubernetesApplication * option error) :=
  match obj with
  | ObjContainerizedWorkload cw =>
      _ <-! packagedDeployment cw;
      Returned (app, None)
  | _ => Returned (app, errors.New errNotContainerizedWorkload)
  end.

Section Modifier.
Context `{conv : UnstructuredConverter}.

(** The loop of [manualScalerModifier] over [app.Spec.ResourceTemplates]:
    [i] is the index, [todo] the elements from [i] on.  There is no [break]:
    the loop goes on after a replacement. *)
Fixpoint modifyTemplates (ReplicaCount : Z) (i : nat)
  (todo : list workloadv1alpha1.KubernetesApplicationResourceTemplate)
  (app : workloadv1alpha1.KubernetesApplication)
  : workloadv1alpha1.KubernetesApplication * option error :=
  match todo with
  | [] => (app, None)
  | t :: rest =>
      if decide (unstructured.GetKind (workloadv1alpha1.Template t)
                 = "Deployment") then
        match FromUnstructured
                (unstructured.Object (workloadv1alpha1.Template t))
                appsv1.zero with
        | (_, Some err) => (app, Some err)
        | (d, None) =>
            let d' := appsv1.setReplicas d (Some ReplicaCount) in
            match ToUnstructured (ObjDeployment d') with
            | (_, Some err) => (app, Some err)
            | (u, None) =>
                let app' :=
                  workloadv1alpha1.setResourceTemplates app
                    (alter (fun rt =>
                              workloadv1alpha1.setTemplate rt
                                {| unstructured.Object := u |})
                       i (workloadv1alpha1.ResourceTemplates app)) in
                modifyTemplates ReplicaCount (S i) rest app'
            end
        end
      else modifyTemplates ReplicaCount (S i) rest app
  end.

Definition manualScalerModifier
  (app : workloadv1alpha1.KubernetesApplication) (obj : Object)
  : workloadv1alpha1.KubernetesApplication * option error :=
  match obj with
  | ObjTrait t =>
      match t_Spec t with
      | ManualScalerSpec n =>
          modifyTemplates n 0 (workloadv1alpha1.ResourceTemplates app) app
      | FakeSpec => (app, errors.New errNotManualScalerTrait)
      end
  | _ => (app, errors.New errNotManualScalerTrait)
  end.

End Modifier.

End containerizedworkload.

(** ** pkg/reconciler/trait: the trait reconciler *)

Module trait.

(** [time.Duration] counts nanoseconds. *)
Definition Second : Z := 1000000000.
Definition Minute : Z := 60 * Second.

Definition reconcileTimeout : Z := 1 * Minute.
Definition shortWait : Z := 30 * Second.
Definition longWait : Z := 1 * Minute.

Definition errGetTrait : string := "cannot get trait".
Definition errUpdateTraitStatus : string := "cannot update trait status".
Definition errTraitModify : string := "cannot apply trait modification".
Definition errGetPackage : string :=
  "cannot get KubernetesApplication for workload reference in trait".
Definition errApplyTraitModification : string :=
  "cannot apply trait modification to KubernetesApplication".

Definition reasonTraitModify : string := "PackageModified".
Definition reasonCannotGetPackage : string :=
  "CannotGetReferencedWorkloadPackage".
Definition reasonCannotModifyPackage : string := "CannotModifyPackage".
Definition reasonCannotApplyModification : string := "CannotApplyModification".

(** [reconcile.Result] *)
Record Result := { Requeue : bool; RequeueAfter : Z }.

Definition Result_zero : Result := {| Requeue := false; RequeueAfter := 0 |}.
Definition requeueAfter (d : Z) : Result :=
  {| Requeue := false; RequeueAfter := d |}.

(** Events handed to the recorder. *)
Inductive EventType := EventNormal | EventWarning.
Record Event := { e_Type : EventType; e_Reason : string; e_Message : string }.

Definition Warning (reason : string) (err : error) : Event :=
  {| e_Type := EventWarning; e_Reason := reason;
     e_Message := errors.Error err |}.
Definition Normal (reason message : string) : Event :=
  {| e_Type := EventNormal; e_Reason := reason; e_Message := message |}.

(** [Modifier]: the modifier works on the application it is handed and
    reports an error. *)
Definition Modifier : Type :=
  workloadv1alpha1.KubernetesApplication -> Object
  -> workloadv1alpha1.KubernetesApplication * option error.

Definition noopModifier : Modifier := fun app _ => (app, None).

(** What the reconciler asked of its collaborators, in order, with the error
    each call returned. *)
Inductive Call :=
| CallGetTrait (key : NamespacedName) (res : option error)
| CallGetApp (key : NamespacedName) (res : option error)
| CallModify (app : workloadv1alpha1.KubernetesApplication) (obj : Object)
    (res : option error)
| CallApply (app : workloadv1alpha1.KubernetesApplication)
    (res : option error)
| CallStatusUpdate (t : Trait) (res : option error).

Definition isStatusUpdate (c : Call) : bool :=
  match c with
  | CallStatusUpdate _ _ => true
  | _ => false
  end.

Section Reconciler.
Context {World : Type}.

(** The store behind [client.Client]: every call sees the store as the
    previous calls left it.  [Get] fills the object it is handed; [Apply] is
    [resource.Apply] with [ControllersMustMatch] through the same client. *)
Record Client := {
  GetTrait : World -> NamespacedName -> Trait -> World * Trait * option error;
  GetApp :
    World -> NamespacedName -> workloadv1alpha1.KubernetesApplication
    -> World * workloadv1alpha1.KubernetesApplication * option error;
  Apply :
    World -> workloadv1alpha1.KubernetesApplication -> World * option error;
  StatusUpdate : World -> Trait -> World * option error;
}.

Record Reconciler := {
  client : Client;
  modifier : Modifier;
  newTrait : Trait;
}.

Record Run := {
  result : Result;
  err : option error;
  world : World;
  calls : list Call;
  events : list Event;
}.

(** The three failure exits share their shape: record a warning, set the
    error condition, write the status and ask for a short wait. *)
Definition failWith (r : Reconciler) (w : World) (trait : Trait)
  (reason : string) (e : error) (msg : string) (cs : list Call) : Run :=
  let trait' :=
    Trait_SetConditions trait
      [v1alpha1.ReconcileError (WithMessage e msg)] in
  let '(w', uerr) := StatusUpdate (client r) w trait' in
  {| result := requeueAfter shortWait;
     err := errors.Wrap uerr errUpdateTraitStatus;
     world := w';
     calls := cs ++ [CallStatusUpdate trait' uerr];
     events := [Warning reason e] |}.

(** The ownership stamp before the apply. *)
Definition stamp (app : workloadv1alpha1.KubernetesApplication)
  (trait : Trait) : workloadv1alpha1.KubernetesApplication :=
  workloadv1alpha1.setMeta app
    {| Name := ref_Name (t_WorkloadRef trait);
       Namespace := Namespace (t_Meta trait);
       UID := UID (workloadv1alpha1.app_Meta app);
       ResourceVersion := ResourceVersion (workloadv1alpha1.app_Meta app);
       OwnerReferences := OwnerReferences (t_Meta trait) |}.

Definition packageKey (trait : Trait) : NamespacedName :=
  {| nn_Namespace := Namespace (t_Meta trait);
     nn_Name := ref_Name (t_WorkloadRef trait) |}.

Definition Reconcile (r : Reconciler) (w : World) (req : NamespacedName)
  : Run :=
  let '(w1, trait, gerr) := GetTrait (client r) w req (newTrait r) in
  let c1 := [CallGetTrait req gerr] in
  match gerr with
  | Some _ =>
      {| result := Result_zero;
         err := errors.Wrap (resource.IgnoreNotFound gerr) errGetTrait;
         world := w1; calls := c1; events := [] |}
  | None =>
      let '(w2, app, aerr) :=
        GetApp (client r) w1 (packageKey trait) workloadv1alpha1.zero in
      let c2 := c1 ++ [CallGetApp (packageKey trait) aerr] in
      match resource.IgnoreNotFound aerr, aerr with
      | Some _, Some e =>
          failWith r w2 trait reasonCannotGetPackage e errGetPackage c2
      | _, _ =>
          let '(app', merr) := modifier r app (ObjTrait trait) in
          let c3 := c2 ++ [CallModify app (ObjTrait trait) merr] in
          match merr with
          | Some e =>
              failWith r w2 trait reasonCannotModifyPackage e errTraitModify c3
          | None =>
              let app'' := stamp app' trait in
              let '(w3, perr) := Apply (client r) w2 app'' in
              let c4 := c3 ++ [CallApply app'' perr] in
              match perr with
              | Some e =>
                  failWith r w3 trait reasonCannotApplyModification e
                    errApplyTraitModification c4
              | None =>
                  let trait' :=
                    Trait_SetConditions trait [v1alpha1.ReconcileSuccess] in
                  let '(w4, uerr) := StatusUpdate (client r) w3 trait' in
                  {| result := requeueAfter longWait;
                     err := errors.Wrap uerr errUpdateTraitStatus;
                     world := w4;
                     calls := c4 ++ [CallStatusUpdate trait' uerr];
                     events :=
                       [Normal reasonTraitModify
                          "Successfully modifed workload package"] |}
              end
          end
      end
  end.

End Reconciler.

Arguments Client : clear implicits.
Arguments Reconciler : clear implicits.
Arguments Run : clear implicits.

End trait.

(** ** Worked inputs

    A small converter, documents, descriptors and mock clients on which the
    functions above are evaluated.  The converter keeps a document's kind and
    replica count; the general theorems hold for every converter. *)

Module samples.

Definition toUnstructured (obj : Object) : gmap string unstructured.Value * option error :=
  match obj with
  | ObjDeployment d =>
      (<["kind" := unstructured.VString (appsv1.d_Kind d)]>
         (<["spec" :=
              unstructured.VMap match appsv1.Replicas d with
                   | Some n => {["replicas" := unstructured.VInt n]}
                   | None => ∅
                   end]> ∅), None)
  | ObjContainerizedWorkload _ =>
      ({["kind" := unstructured.VString "ContainerizedWorkload"]}, None)
  | ObjTrait _ => ({["kind" := unstructured.VString "ManualScalerTrait"]}, None)
  end.

Definition fromUnstructured (u : gmap string unstructured.Value) (d : appsv1.Deployment)
  : appsv1.Deployment * option error :=
  let d1 :=
    match u !! "kind" with
    | Some (unstructured.VString k) =>
        {| appsv1.d_Kind := k; appsv1.d_APIVersion := appsv1.d_APIVersion d;
           appsv1.d_Meta := appsv1.d_Meta d;
           appsv1.Replicas := appsv1.Replicas d;
           appsv1.PodSpec := appsv1.PodSpec d |}
    | _ => d
    end in
  match u !! "spec" with
  | None => (d1, None)
  | Some (unstructured.VMap spec) =>
      match spec !! "replicas" with
      | None => (d1, None)
      | Some (unstructured.VInt n) => (appsv1.setReplicas d1 (Some n), None)
      | Some _ => (d1, Some (ErrorString "cannot decode replicas"))
      end
  | Some _ => (d1, Some (ErrorString "cannot decode spec"))
  end.

#[export] Instance converter : UnstructuredConverter :=
  {| ToUnstructured := toUnstructured; FromUnstructured := fromUnstructured |}.

(** Documents *)

Definition deployment (replicas : Z) : unstructured.Unstructured :=
  {| unstructured.Object := <["kind" := unstructured.VString "Deployment"]>
                 (<["spec" := unstructured.VMap {["replicas" := unstructured.VInt replicas]}]> ∅) |}.

Definition service : unstructured.Unstructured :=
  {| unstructured.Object := {["kind" := unstructured.VString "Service"]} |}.

Definition template (name : string) (u : unstructured.Unstructured)
  : workloadv1alpha1.KubernetesApplicationResourceTemplate :=
  {| workloadv1alpha1.rt_Meta :=
       {| Name := name; Namespace := ""; UID := ""; ResourceVersion := "";
          OwnerReferences := [] |};
     workloadv1alpha1.Template := u;
     workloadv1alpha1.Secrets := [] |}.

(** Two deployments around a service. *)
Definition twoDeployments : workloadv1alpha1.KubernetesApplication :=
  {| workloadv1alpha1.app_Meta := emptyMeta;
     workloadv1alpha1.ResourceTemplates :=
       [template "first" (deployment 1); template "svc" service;
        template "second" (deployment 1)] |}.

(** The same application with three replicas in both deployments. *)
Definition twoDeploymentsScaled : workloadv1alpha1.KubernetesApplication :=
  {| workloadv1alpha1.app_Meta := emptyMeta;
     workloadv1alpha1.ResourceTemplates :=
       [template "first" (deployment 3); template "svc" service;
        template "second" (deployment 3)] |}.

Definition onlyService : workloadv1alpha1.KubernetesApplication :=
  {| workloadv1alpha1.app_Meta := emptyMeta;
     workloadv1alpha1.ResourceTemplates := [template "svc" service] |}.

(** Descriptors *)

Definition scaler : Trait :=
  {| t_Meta := {| Name := "scale"; Namespace := "default"; UID := "u1";
                  ResourceVersion := "1"; OwnerReferences := [] |};
     t_Status := [];
     t_WorkloadRef := {| ref_Kind := "ContainerizedWorkload";
                         ref_Namespace := ""; ref_Name := "web" |};
     t_Spec := ManualScalerSpec 3 |}.

Definition resources : oamv1alpha2.ContainerResources :=
  {| oamv1alpha2.CPU_Required := "1";
     oamv1alpha2.Memory_Required := "1Gi";
     oamv1alpha2.Volumes := [] |}.

Definition container (ports : list oamv1alpha2.ContainerPort)
  : oamv1alpha2.Container :=
  {| oamv1alpha2.c_Name := "web";
     oamv1alpha2.c_Image := "nginx";
     oamv1alpha2.c_Resources := resources;
     oamv1alpha2.c_Command := [];
     oamv1alpha2.c_Arguments := [];
     oamv1alpha2.c_Environment := [];
     oamv1alpha2.c_Ports := ports;
     oamv1alpha2.c_LivenessProbe := None;
     oamv1alpha2.c_ReadinessProbe := None;
     oamv1alpha2.c_ImagePullSecret := None |}.

Definition workloadOf (os : option string)
  (cs : list oamv1alpha2.Container) : oamv1alpha2.ContainerizedWorkload :=
  {| oamv1alpha2.cw_Meta := emptyMeta;
     oamv1alpha2.OperatingSystem := os;
     oamv1alpha2.CPUArchitecture := None;
     oamv1alpha2.Containers := cs |}.

(** One container web/nginx with the port http/80/TCP. *)
Definition web : oamv1alpha2.ContainerizedWorkload :=
  workloadOf None
    [container [ {| oamv1alpha2.cp_Name := "http";
                    oamv1alpha2.cp_Port := 80;
                    oamv1alpha2.cp_Protocol := Some "TCP" |} ]].

(** The same container, its port without a protocol. *)
Definition webNoProtocol : oamv1alpha2.ContainerizedWorkload :=
  workloadOf None
    [container [ {| oamv1alpha2.cp_Name := "http";
                    oamv1alpha2.cp_Port := 80;
                    oamv1alpha2.cp_Protocol := None |} ]].

(** No container, an operating-system selector. *)
Definition onLinux : oamv1alpha2.ContainerizedWorkload :=
  workloadOf (Some "linux") [].

(** Mock clients in the manner of [test.MockClient]: the store is not
    modelled ([unit]); a [Get] returns the given error and fills the object
    when one is given. *)

Definition mockGet {A} (fill : option A) (e : option error)
  : unit -> NamespacedName -> A -> unit * A * option error :=
  fun w _ obj => (w, default obj fill, e).

Definition mockClient (t : option Trait) (gerr : option error)
  (app : option workloadv1alpha1.KubernetesApplication)
  (aerr perr uerr : option error) : trait.Client unit :=
  {| trait.GetTrait := mockGet t gerr;
     trait.GetApp := mockGet app aerr;
     trait.Apply := fun w _ => (w, perr);
     trait.StatusUpdate := fun w _ => (w, uerr) |}.

Definition errBoom : error := ErrorString "boom".

Definition reconciler (c : trait.Client unit) (m : trait.Modifier)
  : trait.Reconciler unit :=
  {| trait.client := c; trait.modifier := m;
     trait.newTrait := {| t_Meta := emptyMeta; t_Status := [];
                          t_WorkloadRef := emptyRef; t_Spec := FakeSpec |} |}.

Definition request : NamespacedName :=
  {| nn_Namespace := "default"; nn_Name := "scale" |}.

Definition manualScaler : trait.Modifier :=
  containerizedworkload.manualScalerModifier (conv := converter).

(** The trait is gone from the store. *)
Definition traitNotFound : trait.Reconciler unit :=
  reconciler
    (mockClient None (kerrors.NewNotFound "scale") None None None None)
    trait.noopModifier.

(** The case GetTraitError of the package's test: every [Get] fails with
    "boom". *)
Definition traitBoom : trait.Reconciler unit :=
  reconciler (mockClient None (Some errBoom) None (Some errBoom) None None)
    trait.noopModifier.


(** Everything succeeds. *)
Definition healthy : trait.Reconciler unit :=
  reconciler
    (mockClient (Some scaler) None (Some twoDeployments) None None None)
    manualScaler.


End samples.

(** ** Failures after the primary fetch

    [FailsAfterFetch r w req e msg]: in the reconcile of [req] from store [w]
    the trait is fetched, and then the fetch of the application, the
    modification or the apply returns the error [e]; [msg] is the text the
    reconciler wraps that error in. *)


(** The discriminant kind of a fragment. *)
Definition kindOf (t : workloadv1alpha1.KubernetesApplicationResourceTemplate)
  : string :=
  unstructured.GetKind (workloadv1alpha1.Template t).

(** [patched n t t']: what one pass of the modifier's loop body makes of the
    template [t] for the replica count [n]. *)
Definition patched `{conv : UnstructuredConverter} (n : Z)
  (t t' : workloadv1alpha1.KubernetesApplicationResourceTemplate) : Prop :=
  if decide (kindOf t = "Deployment") then
    exists d u,
      FromUnstructured (unstructured.Object (workloadv1alpha1.Template t))
        appsv1.zero = (d, None)
      /\ ToUnstructured (ObjDeployment (appsv1.setReplicas d (Some n)))
         = (u, None)
      /\ t' = workloadv1alpha1.setTemplate t {| unstructured.Object := u |}
  else t' = t.

(** ** pkg/reconciler/trait: NewReconciler and its options

    The manager supplies the client and the scheme from which [newTrait]
    makes a fresh object.  Logger and recorder are not part of the modelled
    reconciler state, so the options that set them leave it as it is. *)

Module trait_options.

Section Options.
Context {World : Type}.

Definition ReconcilerOption : Type :=
  trait.Reconciler World -> trait.Reconciler World.

Definition WithLogger : ReconcilerOption := fun r => r.

Definition WithRecorder : ReconcilerOption := fun r => r.

Definition WithModifier (m : trait.Modifier) : ReconcilerOption :=
  fun r => {| trait.client := trait.client r;
              trait.modifier := m;
              trait.newTrait := trait.newTrait r |}.

(** The reconciler starts with the no-op modifier; the options are applied
    in the order given. *)
Definition NewReconciler (c : trait.Client World) (nt : Trait)
  (o : list ReconcilerOption) : trait.Reconciler World :=
  foldl (fun r ro => ro r)
    {| trait.client := c; trait.modifier := trait.noopModifier;
       trait.newTrait := nt |} o.

End Options.

End trait_options.

(** ** Vocabulary of the further properties *)

(** [packagedAs c k]: [k] is the container one iteration of the packager's
    loop appends for the source container [c]. *)
Definition packagedAs (c : oamv1alpha2.Container) (k : corev1.Container)
  : Prop :=
  exists d1,
    containerizedworkload.packageContainer appsv1.zero c = Returned d1
    /\ corev1.Containers (appsv1.PodSpec d1) = [k].

(** The pull secret a container contributes to the pod-level list. *)
Definition pullSecretOf (c : oamv1alpha2.Container)
  : option corev1.LocalObjectReference :=
  (fun s => {| corev1.lor_Name := s |}) <$> oamv1alpha2.c_ImagePullSecret c.

(** A source port and the target port made from it. *)
Definition portCopied (p : oamv1alpha2.ContainerPort)
  (q : corev1.ContainerPort) : Prop :=
  corev1.cp_Name q = oamv1alpha2.cp_Name p
  /\ corev1.cp_ContainerPort q = oamv1alpha2.cp_Port p
  /\ oamv1alpha2.cp_Protocol p = Some (corev1.cp_Protocol q).



(** A source probe and the target probe made from it: each handler is
    present on both sides or on neither and carries the source's values (a
    port as the integer form of an int-or-string), and a timing field is the
    source's value or zero. *)
Definition probeCopied (p : oamv1alpha2.ContainerHealthProbe)
  (q : corev1.Probe) : Prop :=
  (corev1.Exec (corev1.pr_Handler q)
   = (fun e => {| corev1.ex_Command := oamv1alpha2.ex_Command e |})
       <$> oamv1alpha2.Exec p)
  /\ option_Forall2
       (fun g h =>
          corev1.hg_Path h = oamv1alpha2.hg_Path g
          /\ corev1.hg_Port h
             = corev1.IntOrString_IntVal (oamv1alpha2.hg_Port g)
          /\ Forall2
               (fun x y => corev1.hh_Name y = oamv1alpha2.hh_Name x
                           /\ corev1.hh_Value y = oamv1alpha2.hh_Value x)
               (oamv1alpha2.hg_HTTPHeaders g) (corev1.hg_HTTPHeaders h))
       (oamv1alpha2.HTTPGet p) (corev1.HTTPGet (corev1.pr_Handler q))
  /\ option_Forall2
       (fun s t =>
          corev1.tcp_Port t
          = corev1.IntOrString_IntVal (oamv1alpha2.tcp_Port s))
       (oamv1alpha2.TCPSocket p) (corev1.TCPSocket (corev1.pr_Handler q))
  /\ corev1.InitialDelaySeconds q
     = default 0%Z (oamv1alpha2.InitialDelaySeconds p)
  /\ corev1.TimeoutSeconds q = default 0%Z (oamv1alpha2.TimeoutSeconds p)
  /\ corev1.PeriodSeconds q = default 0%Z (oamv1alpha2.PeriodSeconds p)
  /\ corev1.SuccessThreshold q
     = default 0%Z (oamv1alpha2.SuccessThreshold p)
  /\ corev1.FailureThreshold q
     = default 0%Z (oamv1alpha2.FailureThreshold p).

(** What the modifier leaves alone in a template whatever the outcome. *)
Definition framed
  (t t' : workloadv1alpha1.KubernetesApplicationResourceTemplate) : Prop :=
  workloadv1alpha1.rt_Meta t' = workloadv1alpha1.rt_Meta t
  /\ workloadv1alpha1.Secrets t' = workloadv1alpha1.Secrets t
  /\ (kindOf t <> "Deployment" -> t' = t).

(** The converter fails on the deployment fragment [t] with [e], in the
    decoding or in the encoding of the rescaled deployment. *)
Definition conversionFails `{conv : UnstructuredConverter} (n : Z)
  (t : workloadv1alpha1.KubernetesApplicationResourceTemplate) (e : error)
  : Prop :=
  snd (FromUnstructured (unstructured.Object (workloadv1alpha1.Template t))
         appsv1.zero) = Some e
  \/ exists d,
       FromUnstructured (unstructured.Object (workloadv1alpha1.Template t))
         appsv1.zero = (d, None)
       /\ snd (ToUnstructured
                 (ObjDeployment (appsv1.setReplicas d (Some n)))) = Some e.

(** The kind of a call and whether it went through; the fetch of the
    application goes through when it leaves no error after not-found has
    been ignored. *)
Inductive Step :=
| StepGetTrait (ok : bool)
| StepGetApp (ok : bool)
| StepModify (ok : bool)
| StepApply (ok : bool)
| StepStatusUpdate.

Definition isNil (e : option error) : bool :=
  match e with
  | None => true
  | Some _ => false
  end.

Definition stepOf (c : trait.Call) : Step :=
  match c with
  | trait.CallGetTrait _ res => StepGetTrait (isNil res)
  | trait.CallGetApp _ res => StepGetApp (isNil (resource.IgnoreNotFound res))
  | trait.CallModify _ _ res => StepModify (isNil res)
  | trait.CallApply _ res => StepApply (isNil res)
  | trait.CallStatusUpdate _ _ => StepStatusUpdate
  end.

(** The five courses a reconcile can take. *)
Definition courses : list (list Step) :=
  [ [StepGetTrait false];
    [StepGetTrait true; StepGetApp false; StepStatusUpdate];
    [StepGetTrait true; StepGetApp true; StepModify false; StepStatusUpdate];
    [StepGetTrait true; StepGetApp true; StepModify true; StepApply false;
     StepStatusUpdate];
    [StepGetTrait true; StepGetApp true; StepModify true; StepApply true;
     StepStatusUpdate] ].

(** ** Further worked inputs *)

Module samples2.

(** A container with a pull secret, an environment, a read-only and a
    read-write volume and a liveness probe with two handlers. *)
Definition probe : oamv1alpha2.ContainerHealthProbe :=
  {| oamv1alpha2.Exec := Some {| oamv1alpha2.ex_Command := ["true"] |};
     oamv1alpha2.HTTPGet := None;
     oamv1alpha2.TCPSocket := Some {| oamv1alpha2.tcp_Port := 8080 |};
     oamv1alpha2.InitialDelaySeconds := Some 5%Z;
     oamv1alpha2.PeriodSeconds := None;
     oamv1alpha2.TimeoutSeconds := None;
     oamv1alpha2.SuccessThreshold := None;
     oamv1alpha2.FailureThreshold := None |}.

Definition api : oamv1alpha2.Container :=
  {| oamv1alpha2.c_Name := "api";
     oamv1alpha2.c_Image := "example/api";
     oamv1alpha2.c_Resources :=
       {| oamv1alpha2.CPU_Required := "500m";
          oamv1alpha2.Memory_Required := "64Mi";
          oamv1alpha2.Volumes :=
            [ {| oamv1alpha2.v_Name := "conf";
                 oamv1alpha2.v_MouthPath := "/etc/api";
                 oamv1alpha2.v_AccessMode := Some "RO" |};
              {| oamv1alpha2.v_Name := "data";
                 oamv1alpha2.v_MouthPath := "/var/api";
                 oamv1alpha2.v_AccessMode := None |} ] |};
     oamv1alpha2.c_Command := ["/api"];
     oamv1alpha2.c_Arguments := ["--serve"];
     oamv1alpha2.c_Environment :=
       [ {| oamv1alpha2.ev_Name := "A"; oamv1alpha2.ev_Value := "1" |};
         {| oamv1alpha2.ev_Name := "B"; oamv1alpha2.ev_Value := "2" |} ];
     oamv1alpha2.c_Ports :=
       [ {| oamv1alpha2.cp_Name := "grpc"; oamv1alpha2.cp_Port := 9000;
            oamv1alpha2.cp_Protocol := Some "TCP" |} ];
     oamv1alpha2.c_LivenessProbe := Some probe;
     oamv1alpha2.c_ReadinessProbe := None;
     oamv1alpha2.c_ImagePullSecret := Some "registry" |}.

(** Two containers: web (no pull secret) and api. *)
Definition webAndApi : oamv1alpha2.ContainerizedWorkload :=
  samples.workloadOf None
    [samples.container [ {| oamv1alpha2.cp_Name := "http";
                            oamv1alpha2.cp_Port := 80;
                            oamv1alpha2.cp_Protocol := Some "TCP" |} ];
     api].

Definition packagedWebAndApi : appsv1.Deployment :=
  match containerizedworkload.packagedDeployment webAndApi with
  | Returned d => d
  | Panicked _ => appsv1.zero
  end.

(** A converter that decodes only documents with a "spec". *)
#[export] Instance strictConverter : UnstructuredConverter :=
  {| ToUnstructured := samples.toUnstructured;
     FromUnstructured := fun u d =>
       match u !! "spec" with
       | Some _ => samples.fromUnstructured u d
       | None => (d, Some (ErrorString "no spec"))
       end |}.

Definition bareDeployment : unstructured.Unstructured :=
  {| unstructured.Object :=
       {["kind" := unstructured.VString "Deployment"]} |}.

(** A deployment, a deployment the strict converter cannot decode, and a
    third deployment. *)
Definition brokenSecond : workloadv1alpha1.KubernetesApplication :=
  {| workloadv1alpha1.app_Meta := emptyMeta;
     workloadv1alpha1.ResourceTemplates :=
       [samples.template "first" (samples.deployment 1);
        samples.template "bad" bareDeployment;
        samples.template "third" (samples.deployment 1)] |}.

Definition brokenSecondAfter : workloadv1alpha1.KubernetesApplication :=
  {| workloadv1alpha1.app_Meta := emptyMeta;
     workloadv1alpha1.ResourceTemplates :=
       [samples.template "first" (samples.deployment 3);
        samples.template "bad" bareDeployment;
        samples.template "third" (samples.deployment 1)] |}.

(** A trait that is not a manual scaler. *)
Definition fakeTrait : Trait :=
  {| t_Meta := {| Name := "fake"; Namespace := "default"; UID := "u2";
                  ResourceVersion := "1"; OwnerReferences := [] |};
     t_Status :=
       [ {| v1alpha1.Type_ := v1alpha1.TypeReady;
            v1alpha1.Status := v1alpha1.ConditionTrue;
            v1alpha1.Reason := v1alpha1.ReasonText "Available";
            v1alpha1.Message := "" |} ];
     t_WorkloadRef := emptyRef;
     t_Spec := FakeSpec |}.

(** The fake trait and an application are in the store; the modifier is the
    manual scaler's. *)
Definition wrongVariant : trait.Reconciler unit :=
  samples.reconciler
    (samples.mockClient (Some fakeTrait) None (Some samples.onlyService)
       None None None)
    samples.manualScaler.

(** The status write fails with "boom" after a successful apply. *)
Definition statusBoom : trait.Reconciler unit :=
  samples.reconciler
    (samples.mockClient (Some samples.scaler) None
       (Some samples.twoDeployments) None None (Some samples.errBoom))
    samples.manualScaler.

(** A reconciler made by [NewReconciler] with a logger option only. *)
Definition unconfigured : trait.Reconciler unit :=
  trait_options.NewReconciler
    (samples.mockClient (Some samples.scaler) None
       (Some samples.twoDeployments) None None None)
    (trait.newTrait samples.healthy)
    [trait_options.WithLogger].

(** A deployment object with one replica, and the application that holds a
    service and a packaged deployment with [n] replicas. *)
Definition webDeployment : appsv1.Deployment :=
  {| appsv1.d_Kind := "Deployment"; appsv1.d_APIVersion := "";
     appsv1.d_Meta := emptyMeta; appsv1.Replicas := Some 1%Z;
     appsv1.PodSpec := appsv1.PodSpec appsv1.zero |}.

Definition serviceAndDeployment (n : Z)
  : workloadv1alpha1.KubernetesApplication :=
  {| workloadv1alpha1.app_Meta := emptyMeta;
     workloadv1alpha1.ResourceTemplates :=
       [samples.template "svc" samples.service;
        {| workloadv1alpha1.rt_Meta := emptyMeta;
           workloadv1alpha1.Template := samples.deployment n;
           workloadv1alpha1.Secrets := [] |}] |}.

End samples2.

(** * Theorems *)

(** ** Conditions *)

Lemma setExisting_seen new cs ex :
  snd (v1alpha1.setExisting new cs ex) = true ->
  ex = true \/
  v1alpha1.GetCondition (fst (v1alpha1.setExisting new cs ex))
    (v1alpha1.Type_ new) = new.
Proof.
  revert ex. induction cs as [|c cs IH]; intros ex; simpl.
  - intros ->. by left.
  - repeat case_decide.
    + destruct (v1alpha1.setExisting new cs true) as [rest' ex'] eqn:E.
      simpl. intros _. right. subst c. by rewrite decide_True.
    + destruct (v1alpha1.setExisting new cs true) as [rest' ex'] eqn:E.
      simpl. intros _. right. by rewrite decide_True.
    + specialize (IH ex).
      destruct (v1alpha1.setExisting new cs ex) as [rest' ex'] eqn:E.
      simpl in *. intros Hex. destruct (IH Hex) as [?|IH']; [by left|right].
      by rewrite decide_False.
Qed.

Lemma setExisting_true new cs :
  snd (v1alpha1.setExisting new cs true) = true.
Proof.
  induction cs as [|c cs IH]; simpl; [done|].
  destruct (v1alpha1.setExisting new cs true) as [rest' ex'].
  by repeat case_decide.
Qed.

Lemma setExisting_unseen new cs ex :
  snd (v1alpha1.setExisting new cs ex) = false ->
  fst (v1alpha1.setExisting new cs ex) = cs
  /\ Forall (fun c => v1alpha1.Type_ c <> v1alpha1.Type_ new) cs.
Proof.
  revert ex. induction cs as [|c cs IH]; intros ex; simpl; [done|].
  pose proof (setExisting_true new cs) as Ht.
  destruct (decide (v1alpha1.Type_ c = v1alpha1.Type_ new)) as [Hty|Hty].
  - destruct (v1alpha1.setExisting new cs true) as [rest' ex'].
    simpl in Ht. subst ex'. by case_decide.
  - specialize (IH ex).
    destruct (v1alpha1.setExisting new cs ex) as [rest' ex'].
    simpl in *. intros Hex. destruct (IH Hex) as [-> HF].
    split; [done|]. by constructor.
Qed.

Lemma GetCondition_app_new cs new :
  Forall (fun c => v1alpha1.Type_ c <> v1alpha1.Type_ new) cs ->
  v1alpha1.GetCondition (cs ++ [new]) (v1alpha1.Type_ new) = new.
Proof.
  induction 1 as [|c cs Hc _ IH]; simpl.
  - by rewrite decide_True.
  - by rewrite decide_False.
Qed.

(** After [SetConditions] with one condition, [GetCondition] for its type
    returns it. *)
Lemma GetCondition_SetConditions s c :
  v1alpha1.GetCondition (v1alpha1.SetConditions s [c]) (v1alpha1.Type_ c) = c.
Proof.
  unfold v1alpha1.SetConditions. simpl. unfold v1alpha1.setCondition.
  pose proof (setExisting_seen c s false) as Hs.
  pose proof (setExisting_unseen c s false) as Hu.
  destruct (v1alpha1.setExisting c s false) as [cs ex]. simpl in *.
  destruct ex.
  - destruct (Hs eq_refl) as [?|?]; [done|done].
  - destruct (Hu eq_refl) as [-> HF]. by apply GetCondition_app_new.
Qed.

(** ** The modifier *)

Section ModifierFacts.
Context `{conv : UnstructuredConverter}.

Lemma modifyTemplates_no_match n i todo app :
  Forall (fun t => kindOf t <> "Deployment") todo ->
  containerizedworkload.modifyTemplates n i todo app = (app, None).
Proof.
  intros HF. induction HF as [|t rest Ht _ IH] in i |- *; simpl; [done|].
  unfold kindOf in Ht. by rewrite decide_False.
Qed.

(** The loop invariant: the templates before the index are settled, those
    from the index on are still the original ones. *)
Lemma modifyTemplates_patches n todo done app app' :
  workloadv1alpha1.ResourceTemplates app = done ++ todo ->
  containerizedworkload.modifyTemplates n (length done) todo app
    = (app', None) ->
  exists todo',
    workloadv1alpha1.ResourceTemplates app' = done ++ todo'
    /\ workloadv1alpha1.app_Meta app' = workloadv1alpha1.app_Meta app
    /\ Forall2 (patched n) todo todo'.
Proof.
  induction todo as [|t rest IH] in done, app |- *; simpl; intros Hts Hrun.
  - injection Hrun as <-. exists []. by rewrite Hts.
  - assert (Hlen : forall x : workloadv1alpha1.KubernetesApplicationResourceTemplate,
               S (length done) = length (done ++ [x])).
    { intros x. rewrite length_app. simpl. lia. }
    unfold kindOf in *.
    destruct (decide (unstructured.GetKind (workloadv1alpha1.Template t)
                      = "Deployment")) as [Hk|Hk].
    + destruct (FromUnstructured _ appsv1.zero) as [d [e|]] eqn:Hfrom;
        [done|].
      destruct (ToUnstructured _) as [u [e|]] eqn:Hto; [done|].
      set (t' := workloadv1alpha1.setTemplate t {| unstructured.Object := u |}).
      rewrite (Hlen t') in Hrun.
      apply IH in Hrun as (todo' & Hts' & Hmeta & HF).
      * exists (t' :: todo'). rewrite Hts', <- app_assoc. simpl.
        split; [done|]. split; [done|]. constructor; [|done].
        unfold patched, kindOf. rewrite decide_True by done. by exists d, u.
      * simpl. rewrite Hts.
        replace (length done) with (length done + 0) by lia.
        rewrite alter_app_r, <- app_assoc. done.
    + rewrite (Hlen t) in Hrun.
      apply IH in Hrun as (todo' & Hts' & Hmeta & HF).
      * exists (t :: todo'). rewrite Hts', <- app_assoc. simpl.
        split; [done|]. split; [done|]. constructor; [|done].
        unfold patched, kindOf. by rewrite decide_False.
      * by rewrite Hts, <- app_assoc.
Qed.

(** Claim C7.  When no fragment of the application has the kind
    "Deployment", the manual-scaler modifier returns the application as it
    was and reports no error. *)
Theorem manualScalerModifier_no_match app t n :
  t_Spec t = ManualScalerSpec n ->
  Forall (fun rt => kindOf rt <> "Deployment")
    (workloadv1alpha1.ResourceTemplates app) ->
  containerizedworkload.manualScalerModifier app (ObjTrait t) = (app, None).
Proof.
  intros Hspec HF. unfold containerizedworkload.manualScalerModifier.
  rewrite Hspec. by apply modifyTemplates_no_match.
Qed.

(** Claim C2, amended.  A successful run of the manual-scaler modifier
    patches every fragment whose kind is "Deployment", each at its own
    position: the fragment is decoded, its replica count overwritten and the
    re-encoded document put in its place.  Fragments of any other kind keep
    position and encoding, and the sequence keeps its length and the
    application its metadata. *)
Theorem manualScalerModifier_patches_every_deployment app t n app' :
  t_Spec t = ManualScalerSpec n ->
  containerizedworkload.manualScalerModifier app (ObjTrait t) = (app', None) ->
  Forall2 (patched n)
    (workloadv1alpha1.ResourceTemplates app)
    (workloadv1alpha1.ResourceTemplates app')
  /\ length (workloadv1alpha1.ResourceTemplates app')
     = length (workloadv1alpha1.ResourceTemplates app)
  /\ workloadv1alpha1.app_Meta app' = workloadv1alpha1.app_Meta app
  /\ forall i rt,
       workloadv1alpha1.ResourceTemplates app !! i = Some rt ->
       kindOf rt <> "Deployment" ->
       workloadv1alpha1.ResourceTemplates app' !! i = Some rt.
Proof.
  intros Hspec. unfold containerizedworkload.manualScalerModifier.
  rewrite Hspec. intros Hrun.
  apply (modifyTemplates_patches n _ [] app app') in Hrun as (ts' & Hts & Hm & HF);
    [|done].
  simpl in Hts. rewrite Hts. split; [done|].
  split; [symmetry; by eapply Forall2_length|]. split; [done|].
  intros i rt Hi Hk.
  destruct (Forall2_lookup_l _ _ _ _ _ HF Hi) as (rt' & Hi' & Hp).
  unfold patched in Hp. rewrite decide_False in Hp by done. by subst rt'.
Qed.

End ModifierFacts.

Lemma manualScalerModifier_no_match_witness :
  t_Spec samples.scaler = ManualScalerSpec 3
  /\ Forall (fun rt => kindOf rt <> "Deployment")
       (workloadv1alpha1.ResourceTemplates samples.onlyService)
  /\ containerizedworkload.manualScalerModifier (conv := samples.converter)
       samples.onlyService (ObjTrait samples.scaler)
     = (samples.onlyService, None).
Proof.
  assert (Hk : Forall (fun rt => kindOf rt <> "Deployment")
                 (workloadv1alpha1.ResourceTemplates samples.onlyService)).
  { repeat constructor. vm_compute. discriminate. }
  split; [reflexivity|]. split; [exact Hk|].
  exact (manualScalerModifier_no_match (conv := samples.converter)
           samples.onlyService samples.scaler 3 eq_refl Hk).
Defined.

(** The application [samples.twoDeployments] after the modifier has run for
    three replicas: both deployments carry the new count. *)
Lemma manualScalerModifier_twoDeployments :
  containerizedworkload.manualScalerModifier (conv := samples.converter)
    samples.twoDeployments (ObjTrait samples.scaler)
  = (samples.twoDeploymentsScaled, None).
Proof. vm_compute. reflexivity. Qed.

Lemma manualScalerModifier_patches_every_deployment_witness :
  t_Spec samples.scaler = ManualScalerSpec 3
  /\ containerizedworkload.manualScalerModifier (conv := samples.converter)
       samples.twoDeployments (ObjTrait samples.scaler)
     = (samples.twoDeploymentsScaled, None)
  /\ Forall2 (patched (conv := samples.converter) 3)
       (workloadv1alpha1.ResourceTemplates samples.twoDeployments)
       (workloadv1alpha1.ResourceTemplates samples.twoDeploymentsScaled).
Proof.
  assert (Hrun :
    containerizedworkload.manualScalerModifier (conv := samples.converter)
      samples.twoDeployments (ObjTrait samples.scaler)
    = (samples.twoDeploymentsScaled, None)) by (vm_compute; reflexivity).
  split; [reflexivity|]. split; [exact Hrun|].
  exact (proj1 (manualScalerModifier_patches_every_deployment
                  (conv := samples.converter) samples.twoDeployments
                  samples.scaler 3 samples.twoDeploymentsScaled
                  eq_refl Hrun)).
Defined.

(** Claim C2 as stated fails: in [samples.twoDeployments] the first fragment
    of kind "Deployment" is at position 0, yet the run also replaces the
    later deployment at position 2. *)
Lemma manualScalerModifier_patches_later_deployment :
  exists app',
    containerizedworkload.manualScalerModifier (conv := samples.converter)
      samples.twoDeployments (ObjTrait samples.scaler) = (app', None)
    /\ kindOf <$> workloadv1alpha1.ResourceTemplates samples.twoDeployments
       = ["Deployment"; "Service"; "Deployment"]
    /\ workloadv1alpha1.ResourceTemplates app' !! 2
       = Some (samples.template "second" (samples.deployment 3))
    /\ workloadv1alpha1.ResourceTemplates app' !! 2
       <> workloadv1alpha1.ResourceTemplates samples.twoDeployments !! 2.
Proof.
  eexists. split; [apply manualScalerModifier_twoDeployments|].
  split; [vm_compute; reflexivity|]. split; [reflexivity|].
  intros H.
  apply (f_equal (fun o =>
           match o with
           | Some rt =>
               match unstructured.Object (workloadv1alpha1.Template rt)
                     !! "spec" with
               | Some (unstructured.VMap m) => m !! "replicas"
               | _ => None
               end
           | None => None
           end)) in H.
  vm_compute in H. discriminate H.
Qed.

(** ** The packagers *)

(** The sibling packager does append: one new template at the end, the
    existing ones kept. *)
Lemma genericPackager_appends_one `{conv : UnstructuredConverter}
  app obj app' :
  workload.genericPackager app obj = (app', None) ->
  exists rt,
    workloadv1alpha1.ResourceTemplates app'
    = workloadv1alpha1.ResourceTemplates app ++ [rt]
    /\ unstructured.Object (workloadv1alpha1.Template rt)
       = fst (ToUnstructured obj).
Proof.
  unfold workload.genericPackager.
  destruct (ToUnstructured obj) as [u [e|]]; [done|].
  intros [= <-]. eexists. split; reflexivity.
Qed.

(** [containerizedWorkloadPackager] never writes the application. *)
Lemma containerizedWorkloadPackager_keeps_app app obj app' e :
  containerizedworkload.containerizedWorkloadPackager app obj
  = Returned (app', e) ->
  app' = app.
Proof.
  unfold containerizedworkload.containerizedWorkloadPackager.
  destruct obj as [cw|t|d]; try by intros [= <- _].
  destruct (containerizedworkload.packagedDeployment cw); simpl; [|done].
  by intros [= <- _].
Qed.

Lemma packagePorts_present ps acc :
  Forall (fun p => is_Some (oamv1alpha2.cp_Protocol p)) ps ->
  containerizedworkload.packagePorts ps acc
  = Returned
      (acc ++ map (fun p =>
                     {| corev1.cp_Name := oamv1alpha2.cp_Name p;
                        corev1.cp_ContainerPort := oamv1alpha2.cp_Port p;
                        corev1.cp_Protocol :=
                          default "" (oamv1alpha2.cp_Protocol p) |}) ps).
Proof.
  intros HF. induction HF as [|p ps [proto Hp] _ IH] in acc |- *; simpl.
  - by rewrite app_nil_r.
  - rewrite Hp. simpl. by rewrite IH, <- app_assoc.
Qed.

Lemma packagePorts_absent ps acc :
  Exists (fun p => oamv1alpha2.cp_Protocol p = None) ps ->
  containerizedworkload.packagePorts ps acc = Panicked panicNilDeref.
Proof.
  intros HE. induction HE as [p ps Hp|p ps _ IH] in acc |- *; simpl.
  - by rewrite Hp.
  - destruct (oamv1alpha2.cp_Protocol p); simpl; [apply IH|done].
Qed.

(** A selector that is set makes the packager write to the nil node-selector
    map of the fresh deployment. *)
Lemma packagedDeployment_selector_panics cw :
  is_Some (oamv1alpha2.OperatingSystem cw)
  \/ is_Some (oamv1alpha2.CPUArchitecture cw) ->
  containerizedworkload.packagedDeployment cw = Panicked panicNilMap.
Proof.
  unfold containerizedworkload.packagedDeployment.
  destruct (oamv1alpha2.OperatingSystem cw) as [os|]; simpl; [done|].
  intros [[? [=]]|[arch ->]]. done.
Qed.

(** Claim C1 (the code departs from it).  On the descriptor with the one
    container web/nginx and port http/80/TCP the packager builds the
    deployment the claim describes, and then returns without appending
    anything: the application comes back as it went in. *)
Theorem containerizedWorkloadPackager_web_appends_nothing app :
  containerizedworkload.containerizedWorkloadPackager app
    (ObjContainerizedWorkload samples.web) = Returned (app, None)
  /\ exists d c,
       containerizedworkload.packagedDeployment samples.web = Returned d
       /\ corev1.Containers (appsv1.PodSpec d) = [c]
       /\ corev1.c_Name c = "web" /\ corev1.c_Image c = "nginx"
       /\ corev1.c_Ports c
          = [ {| corev1.cp_Name := "http"; corev1.cp_ContainerPort := 80;
                 corev1.cp_Protocol := "TCP" |} ].
Proof.
  split; [reflexivity|].
  eexists _, _. split; [reflexivity|]. simpl. done.
Qed.

(** Claim C5 (the code departs from it).  With an operating-system selector
    set the packager does not complete: it faults on the write to the nil
    node-selector map. *)
Theorem containerizedWorkloadPackager_os_selector_panics app :
  containerizedworkload.containerizedWorkloadPackager app
    (ObjContainerizedWorkload samples.onLinux) = Panicked panicNilMap.
Proof. reflexivity. Qed.

(** Claim C6 (the code departs from it).  A port without a protocol makes
    the packager fault on the nil dereference. *)
Theorem containerizedWorkloadPackager_absent_protocol_panics app :
  containerizedworkload.containerizedWorkloadPackager app
    (ObjContainerizedWorkload samples.webNoProtocol) = Panicked panicNilDeref.
Proof. reflexivity. Qed.

(** ** The trait reconciler *)

Lemma IsNotFound_inv gerr :
  kerrors.IsNotFound gerr = true ->
  exists msg, gerr = Some (StatusError StatusReasonNotFound msg).
Proof.
  destruct gerr as [[msg|[] msg|cause msg]|]; simpl; try done.
  intros _. by exists msg.
Qed.

Lemma IgnoreNotFound_not_found gerr :
  kerrors.IsNotFound gerr = true -> resource.IgnoreNotFound gerr = None.
Proof.
  unfold resource.IgnoreNotFound, resource.Ignore. by intros ->.
Qed.

Lemma IgnoreNotFound_other gerr :
  kerrors.IsNotFound gerr = false -> resource.IgnoreNotFound gerr = gerr.
Proof.
  unfold resource.IgnoreNotFound, resource.Ignore. by intros ->.
Qed.

Lemma Wrap_nil_iff uerr msg : errors.Wrap uerr msg = None <-> uerr = None.
Proof. by destruct uerr. Qed.

Section ReconcilerFacts.
Context {World : Type}.
Implicit Types (r : trait.Reconciler World) (w : World).



(** Claim C8.  When the fetch of the trait reports not-found, Reconcile
    returns the empty result and a nil error, and the only call it has made
    is that fetch: no status write is attempted. *)
Theorem Reconcile_trait_not_found r w req w1 t gerr :
  trait.GetTrait (trait.client r) w req (trait.newTrait r) = (w1, t, gerr) ->
  kerrors.IsNotFound gerr = true ->
  let run := trait.Reconcile r w req in
  trait.result run = trait.Result_zero
  /\ trait.RequeueAfter (trait.result run) = 0%Z
  /\ trait.err run = None
  /\ trait.calls run = [trait.CallGetTrait req gerr]
  /\ Forall (fun c => trait.isStatusUpdate c = false) (trait.calls run).
Proof.
  intros Ht Hnf. unfold trait.Reconcile. rewrite Ht.
  rewrite (IgnoreNotFound_not_found _ Hnf).
  destruct (IsNotFound_inv _ Hnf) as [msg ->]. simpl.
  repeat split. by repeat constructor.
Qed.

(** Claim C4, amended.  When the fetch of the trait fails with an error
    other than not-found, Reconcile returns the empty result (no requeue
    delay) together with the error wrapped in "cannot get trait"; it sets no
    condition, records no event and attempts no status write. *)
Theorem Reconcile_get_trait_error r w req w1 t e :
  trait.GetTrait (trait.client r) w req (trait.newTrait r)
  = (w1, t, Some e) ->
  kerrors.IsNotFound (Some e) = false ->
  let run := trait.Reconcile r w req in
  trait.result run = trait.Result_zero
  /\ trait.err run = Some (WithMessage e trait.errGetTrait)
  /\ trait.calls run = [trait.CallGetTrait req (Some e)]
  /\ trait.events run = [].
Proof.
  intros Ht Hnf. unfold trait.Reconcile. rewrite Ht.
  rewrite (IgnoreNotFound_other _ Hnf). simpl. done.
Qed.




End ReconcilerFacts.

(** ** The reconciler on the worked inputs *)

Lemma Reconcile_trait_not_found_witness :
  trait.GetTrait (trait.client samples.traitNotFound) tt samples.request
    (trait.newTrait samples.traitNotFound)
  = (tt, trait.newTrait samples.traitNotFound, kerrors.NewNotFound "scale")
  /\ kerrors.IsNotFound (kerrors.NewNotFound "scale") = true
  /\ trait.result (trait.Reconcile samples.traitNotFound tt samples.request)
     = trait.Result_zero
  /\ trait.err (trait.Reconcile samples.traitNotFound tt samples.request)
     = None.
Proof.
  split; [reflexivity|]. split; [reflexivity|].
  pose proof (Reconcile_trait_not_found samples.traitNotFound tt
                samples.request tt _ _ eq_refl eq_refl) as (Hres & _ & Herr & _).
  exact (conj Hres Herr).
Defined.

Lemma Reconcile_get_trait_error_witness :
  trait.GetTrait (trait.client samples.traitBoom) tt samples.request
    (trait.newTrait samples.traitBoom)
  = (tt, trait.newTrait samples.traitBoom, Some samples.errBoom)
  /\ kerrors.IsNotFound (Some samples.errBoom) = false
  /\ trait.result (trait.Reconcile samples.traitBoom tt samples.request)
     = trait.Result_zero
  /\ trait.err (trait.Reconcile samples.traitBoom tt samples.request)
     = Some (WithMessage samples.errBoom trait.errGetTrait).
Proof.
  split; [reflexivity|]. split; [reflexivity|].
  pose proof (Reconcile_get_trait_error samples.traitBoom tt
                samples.request tt _ _ eq_refl eq_refl) as (Hres & Herr & _).
  exact (conj Hres Herr).
Defined.

(** Claim C4 as stated fails: on the test's GetTraitError client the fetch
    fails with "boom", which is not a not-found error, and Reconcile returns
    the empty result, not the short wait, having made no call but the
    fetch. *)
Lemma Reconcile_get_trait_error_no_requeue :
  let run := trait.Reconcile samples.traitBoom tt samples.request in
  kerrors.IsNotFound (Some samples.errBoom) = false
  /\ trait.calls run = [trait.CallGetTrait samples.request
                          (Some samples.errBoom)]
  /\ Forall (fun c => trait.isStatusUpdate c = false) (trait.calls run)
  /\ trait.RequeueAfter (trait.result run) = 0%Z
  /\ trait.result run <> trait.requeueAfter trait.shortWait.
Proof.
  cbv zeta. split; [reflexivity|]. split; [reflexivity|].
  split; [by repeat constructor|]. split; [reflexivity|].
  vm_compute. discriminate.
Qed.





(** * Further properties *)

(** ** The packager, field by field *)

Lemma packagePorts_returned ps acc out :
  containerizedworkload.packagePorts ps acc = Returned out ->
  exists qs, out = acc ++ qs /\ Forall2 portCopied ps qs.
Proof.
  induction ps as [|p ps IH] in acc |- *; simpl.
  - intros [= <-]. exists []. by rewrite app_nil_r.
  - destruct (oamv1alpha2.cp_Protocol p) as [proto|] eqn:Hp; simpl; [|done].
    intros Hrun. apply IH in Hrun as (qs & -> & HF).
    eexists (_ :: qs). rewrite <- app_assoc. split; [done|].
    constructor; [|done]. by repeat split.
Qed.


Lemma option_list_omap {A B} (f : A -> option B) x l :
  omap f (x :: l) = option_list (f x) ++ omap f l.
Proof. simpl. by destruct (f x). Qed.

(** One iteration of the container loop: one container more, the pull
    secret (if any) hoisted, nothing else touched. *)
Lemma packageContainer_appends d c d' :
  containerizedworkload.packageContainer d c = Returned d' ->
  exists k,
    packagedAs c k
    /\ corev1.Containers (appsv1.PodSpec d')
       = corev1.Containers (appsv1.PodSpec d) ++ [k]
    /\ corev1.ImagePullSecrets (appsv1.PodSpec d')
       = corev1.ImagePullSecrets (appsv1.PodSpec d)
         ++ option_list (pullSecretOf c)
    /\ corev1.NodeSelector (appsv1.PodSpec d')
       = corev1.NodeSelector (appsv1.PodSpec d)
    /\ appsv1.Replicas d' = appsv1.Replicas d.
Proof.
  unfold packagedAs, pullSecretOf, containerizedworkload.packageContainer.
  destruct (containerizedworkload.packagePorts _ _) as [ports|]; simpl; [|done].
  intros [= <-]. eexists. split; [eexists; split; [reflexivity|]|].
  - by destruct (oamv1alpha2.c_ImagePullSecret c).
  - destruct (oamv1alpha2.c_ImagePullSecret c); simpl;
      by rewrite ?app_nil_r.
Qed.

Lemma packageContainers_appends cs d d' :
  containerizedworkload.packageContainers cs d = Returned d' ->
  exists ks,
    Forall2 packagedAs cs ks
    /\ corev1.Containers (appsv1.PodSpec d')
       = corev1.Containers (appsv1.PodSpec d) ++ ks
    /\ corev1.ImagePullSecrets (appsv1.PodSpec d')
       = corev1.ImagePullSecrets (appsv1.PodSpec d) ++ omap pullSecretOf cs
    /\ corev1.NodeSelector (appsv1.PodSpec d')
       = corev1.NodeSelector (appsv1.PodSpec d)
    /\ appsv1.Replicas d' = appsv1.Replicas d.
Proof.
  induction cs as [|c cs IH] in d |- *; cbn [containerizedworkload.packageContainers].
  - intros [= <-]. exists []. rewrite !app_nil_r. by repeat split.
  - destruct (containerizedworkload.packageContainer d c) as [d1|] eqn:Hc;
      cbn [obind]; [|done].
    intros Hrest.
    apply packageContainer_appends in Hc as (k & Hk & Hcs & Hsec & Hsel & Hrep).
    apply IH in Hrest as (ks & HF & Hcs' & Hsec' & Hsel' & Hrep').
    exists (k :: ks). split; [by constructor|].
    rewrite Hcs', Hcs, Hsec', Hsec, Hsel', Hsel, Hrep', Hrep.
    rewrite option_list_omap, <- !app_assoc. done.
Qed.





(** X1.  Whatever it is handed, when the packager returns the application
    is the one it was given; it reports an error exactly when the object is
    not a containerized workload, and that error is the typed one. *)
Theorem containerizedWorkloadPackager_result app obj app' e :
  containerizedworkload.containerizedWorkloadPackager app obj
  = Returned (app', e) ->
  app' = app
  /\ (e = None <-> exists cw, obj = ObjContainerizedWorkload cw)
  /\ (e = None
      \/ e = Some (ErrorString
                     containerizedworkload.errNotContainerizedWorkload)).
Proof.
  unfold containerizedworkload.containerizedWorkloadPackager.
  destruct obj as [cw|t|d].
  - destruct (containerizedworkload.packagedDeployment cw); simpl; [|done].
    intros [= <- <-]. split; [done|]. split; [|by left].
    split; [by eexists|done].
  - intros [= <- <-]. split; [done|]. split; [|by right].
    split; [done|]. by intros [? [=]].
  - intros [= <- <-]. split; [done|]. split; [|by right].
    split; [done|]. by intros [? [=]].
Qed.

Lemma containerizedWorkloadPackager_result_witness :
  containerizedworkload.containerizedWorkloadPackager samples.onlyService
    (ObjTrait samples.scaler)
  = Returned (samples.onlyService,
              Some (ErrorString
                      containerizedworkload.errNotContainerizedWorkload))
  /\ (Some (ErrorString containerizedworkload.errNotContainerizedWorkload)
      = None
      <-> exists cw, ObjTrait samples.scaler = ObjContainerizedWorkload cw).
Proof.
  split; [reflexivity|].
  exact (proj1 (proj2 (containerizedWorkloadPackager_result
                         samples.onlyService (ObjTrait samples.scaler)
                         samples.onlyService _ eq_refl))).
Defined.

Lemma packagedDeployment_returned cw d :
  containerizedworkload.packagedDeployment cw = Returned d ->
  Forall2 packagedAs (oamv1alpha2.Containers cw)
    (corev1.Containers (appsv1.PodSpec d))
  /\ corev1.ImagePullSecrets (appsv1.PodSpec d)
     = omap pullSecretOf (oamv1alpha2.Containers cw)
  /\ corev1.NodeSelector (appsv1.PodSpec d) = None
  /\ appsv1.Replicas d = None.
Proof.
  unfold containerizedworkload.packagedDeployment.
  destruct (oamv1alpha2.OperatingSystem cw); simpl; [done|].
  destruct (oamv1alpha2.CPUArchitecture cw); simpl; [done|].
  intros Hrun.
  apply packageContainers_appends in Hrun as (ks & HF & -> & -> & -> & ->).
  done.
Qed.

(** Opens [packagedAs c k] into the ports the loop computed and the record
    the iteration built. *)
Ltac open_packagedAs H ports Hports :=
  let d1 := fresh "d1" in
  let Hrun := fresh "Hrun" in
  let Hk := fresh "Hk" in
  destruct H as (d1 & Hrun & Hk);
  unfold containerizedworkload.packageContainer in Hrun;
  destruct (containerizedworkload.packagePorts _ _) as [ports|] eqn:Hports;
  simpl in Hrun; [|done];
  injection Hrun as <-;
  destruct (oamv1alpha2.c_ImagePullSecret _); simpl in Hk;
  injection Hk as <-.

(** X3.  When the packaging comes to its end, the deployment has one
    container per source container, in the same order, with name, image,
    command and arguments as in the source and exactly the two resource
    requests for CPU and memory; the node selector and the replica count
    stay unset. *)
Theorem packagedDeployment_containers cw d :
  containerizedworkload.packagedDeployment cw = Returned d ->
  Forall2
    (fun c k =>
       corev1.c_Name k = oamv1alpha2.c_Name c
       /\ corev1.c_Image k = oamv1alpha2.c_Image c
       /\ corev1.c_Command k = oamv1alpha2.c_Command c
       /\ corev1.c_Args k = oamv1alpha2.c_Arguments c
       /\ exists m,
            corev1.Requests (corev1.c_Resources k) = Some m
            /\ m !! corev1.ResourceCPU
               = Some (oamv1alpha2.CPU_Required (oamv1alpha2.c_Resources c))
            /\ m !! corev1.ResourceMemory
               = Some (oamv1alpha2.Memory_Required
                         (oamv1alpha2.c_Resources c))
            /\ dom m = {[corev1.ResourceCPU; corev1.ResourceMemory]})
    (oamv1alpha2.Containers cw) (corev1.Containers (appsv1.PodSpec d))
  /\ length (corev1.Containers (appsv1.PodSpec d))
     = length (oamv1alpha2.Containers cw)
  /\ corev1.NodeSelector (appsv1.PodSpec d) = None
  /\ appsv1.Replicas d = None.
Proof.
  intros Hrun.
  apply packagedDeployment_returned in Hrun as (HF & _ & Hsel & Hrep).
  split; [|split; [symmetry; by eapply Forall2_length|done]].
  eapply Forall2_impl; [exact HF|]. intros c k Hk.
  open_packagedAs Hk ports Hports; simpl; repeat split;
    (eexists; split; [reflexivity|]; split; [|split]);
    try (by rewrite lookup_insert_eq);
    try (rewrite lookup_insert_ne by done; by rewrite lookup_insert_eq);
    rewrite !dom_insert_L; set_solver.
Qed.

Lemma packagedDeployment_containers_witness :
  containerizedworkload.packagedDeployment samples2.webAndApi
  = Returned samples2.packagedWebAndApi
  /\ length (corev1.Containers (appsv1.PodSpec samples2.packagedWebAndApi))
     = length (oamv1alpha2.Containers samples2.webAndApi)
  /\ corev1.c_Name <$> corev1.Containers
                         (appsv1.PodSpec samples2.packagedWebAndApi)
     = ["web"; "api"].
Proof.
  assert (Hrun : containerizedworkload.packagedDeployment samples2.webAndApi
                 = Returned samples2.packagedWebAndApi)
    by (vm_compute; reflexivity).
  split; [exact Hrun|]. split; [|vm_compute; reflexivity].
  exact (proj1 (proj2 (packagedDeployment_containers samples2.webAndApi
                         samples2.packagedWebAndApi Hrun))).
Defined.

(** X4.  The pull secrets of the containers are hoisted to the pod-level
    list: one entry per container that names a secret, in container order,
    and nothing for the others. *)
Theorem packagedDeployment_pull_secrets cw d :
  containerizedworkload.packagedDeployment cw = Returned d ->
  corev1.ImagePullSecrets (appsv1.PodSpec d)
  = omap pullSecretOf (oamv1alpha2.Containers cw).
Proof.
  intros Hrun. by apply packagedDeployment_returned in Hrun as (_ & ? & _).
Qed.

Lemma packagedDeployment_pull_secrets_witness :
  containerizedworkload.packagedDeployment samples2.webAndApi
  = Returned samples2.packagedWebAndApi
  /\ corev1.ImagePullSecrets (appsv1.PodSpec samples2.packagedWebAndApi)
     = omap pullSecretOf (oamv1alpha2.Containers samples2.webAndApi)
  /\ omap pullSecretOf (oamv1alpha2.Containers samples2.webAndApi)
     = [ {| corev1.lor_Name := "registry" |} ].
Proof.
  assert (Hrun : containerizedworkload.packagedDeployment samples2.webAndApi
                 = Returned samples2.packagedWebAndApi)
    by (vm_compute; reflexivity).
  split; [exact Hrun|]. split; [|reflexivity].
  exact (packagedDeployment_pull_secrets samples2.webAndApi
           samples2.packagedWebAndApi Hrun).
Defined.

(** X5.  Each container's ports become port entries of its target
    container, one for one and in order: the name and the number are copied
    and the protocol is the one the source port names. *)
Theorem packagedDeployment_ports cw d :
  containerizedworkload.packagedDeployment cw = Returned d ->
  Forall2
    (fun c k => Forall2 portCopied (oamv1alpha2.c_Ports c) (corev1.c_Ports k))
    (oamv1alpha2.Containers cw) (corev1.Containers (appsv1.PodSpec d)).
Proof.
  intros Hrun. apply packagedDeployment_returned in Hrun as (HF & _).
  eapply Forall2_impl; [exact HF|]. intros c k Hk.
  open_packagedAs Hk ports Hports; simpl;
    by apply packagePorts_returned in Hports as (qs & -> & ?).
Qed.

Lemma packagedDeployment_ports_witness :
  containerizedworkload.packagedDeployment samples2.webAndApi
  = Returned samples2.packagedWebAndApi
  /\ Forall2
       (fun c k =>
          Forall2 portCopied (oamv1alpha2.c_Ports c) (corev1.c_Ports k))
       (oamv1alpha2.Containers samples2.webAndApi)
       (corev1.Containers (appsv1.PodSpec samples2.packagedWebAndApi)).
Proof.
  assert (Hrun : containerizedworkload.packagedDeployment samples2.webAndApi
                 = Returned samples2.packagedWebAndApi)
    by (vm_compute; reflexivity).
  split; [exact Hrun|].
  exact (packagedDeployment_ports samples2.webAndApi
           samples2.packagedWebAndApi Hrun).
Defined.

Lemma Forall2_map_graph {A B} (f : A -> B) (l : list A) :
  Forall2 (fun x y => y = f x) l (map f l).
Proof. induction l; simpl; by constructor. Qed.

(** X6.  Environment variables are copied name and value, in declaration
    order; every volume becomes a mount with the same name and path, which
    is read-only exactly when the volume's access mode is "RO". *)
Theorem packagedDeployment_env_and_volumes cw d :
  containerizedworkload.packagedDeployment cw = Returned d ->
  Forall2
    (fun c k =>
       Forall2 (fun e v => corev1.ev_Name v = oamv1alpha2.ev_Name e
                           /\ corev1.ev_Value v = oamv1alpha2.ev_Value e)
         (oamv1alpha2.c_Environment c) (corev1.c_Env k)
       /\ Forall2
            (fun v m =>
               corev1.vm_Name m = oamv1alpha2.v_Name v
               /\ corev1.vm_MountPath m = oamv1alpha2.v_MouthPath v
               /\ (corev1.vm_ReadOnly m = true
                   <-> oamv1alpha2.v_AccessMode v
                       = Some oamv1alpha2.VolumeAccessModeRO))
            (oamv1alpha2.Volumes (oamv1alpha2.c_Resources c))
            (corev1.c_VolumeMounts k))
    (oamv1alpha2.Containers cw) (corev1.Containers (appsv1.PodSpec d)).
Proof.
  intros Hrun. apply packagedDeployment_returned in Hrun as (HF & _).
  eapply Forall2_impl; [exact HF|]. intros c k Hk.
  assert (Henv : forall es,
    Forall2 (fun e v => corev1.ev_Name v = oamv1alpha2.ev_Name e
                        /\ corev1.ev_Value v = oamv1alpha2.ev_Value e)
      es (containerizedworkload.packageEnv es)).
  { intros es. eapply Forall2_impl; [apply Forall2_map_graph|].
    by intros e v ->. }
  assert (Hvol : forall vs,
    Forall2
      (fun v m =>
         corev1.vm_Name m = oamv1alpha2.v_Name v
         /\ corev1.vm_MountPath m = oamv1alpha2.v_MouthPath v
         /\ (corev1.vm_ReadOnly m = true
             <-> oamv1alpha2.v_AccessMode v
                 = Some oamv1alpha2.VolumeAccessModeRO))
      vs (containerizedworkload.packageVolumes vs)).
  { intros vs. eapply Forall2_impl; [apply Forall2_map_graph|].
    intros v m ->. simpl. split; [done|]. split; [done|].
    destruct (oamv1alpha2.v_AccessMode v) as [mode|]; [|done].
    rewrite bool_decide_eq_true. split; [by intros ->|by intros [= ->]]. }
  open_packagedAs Hk ports Hports; simpl; by split.
Qed.

Lemma packagedDeployment_env_and_volumes_witness :
  containerizedworkload.packagedDeployment samples2.webAndApi
  = Returned samples2.packagedWebAndApi
  /\ (corev1.vm_ReadOnly <$>
        concat (corev1.c_VolumeMounts <$>
                  corev1.Containers
                    (appsv1.PodSpec samples2.packagedWebAndApi)))
     = [true; false]
  /\ Forall2
       (fun c k =>
          Forall2 (fun e v => corev1.ev_Name v = oamv1alpha2.ev_Name e
                              /\ corev1.ev_Value v = oamv1alpha2.ev_Value e)
            (oamv1alpha2.c_Environment c) (corev1.c_Env k))
       (oamv1alpha2.Containers samples2.webAndApi)
       (corev1.Containers (appsv1.PodSpec samples2.packagedWebAndApi)).
Proof.
  assert (Hrun : containerizedworkload.packagedDeployment samples2.webAndApi
                 = Returned samples2.packagedWebAndApi)
    by (vm_compute; reflexivity).
  split; [exact Hrun|]. split; [vm_compute; reflexivity|].
  eapply Forall2_impl;
    [exact (packagedDeployment_env_and_volumes samples2.webAndApi
              samples2.packagedWebAndApi Hrun)|].
  by intros c k [? _].
Defined.

Lemma packageProbe_copied p :
  probeCopied p (containerizedworkload.packageProbe p).
Proof.
  unfold probeCopied, containerizedworkload.packageProbe. simpl.
  split; [by destruct (oamv1alpha2.Exec p)|].
  split.
  { destruct (oamv1alpha2.HTTPGet p) as [g|]; constructor. simpl.
    split; [done|]. split; [done|].
    eapply Forall2_impl; [apply Forall2_map_graph|]. by intros x y ->. }
  split; [by destruct (oamv1alpha2.TCPSocket p); constructor|].
  done.
Qed.

(** X7.  A target container has a liveness (readiness) probe exactly when
    the source container has one; the probe carries every handler the source
    probe has (exec, HTTP GET and TCP socket side by side when several are
    given) and no other, and each timing field is the source's value when
    that is set and zero when it is not. *)
Theorem packagedDeployment_probes cw d :
  containerizedworkload.packagedDeployment cw = Returned d ->
  Forall2
    (fun c k =>
       option_Forall2 probeCopied
         (oamv1alpha2.c_LivenessProbe c) (corev1.c_LivenessProbe k)
       /\ option_Forall2 probeCopied
            (oamv1alpha2.c_ReadinessProbe c) (corev1.c_ReadinessProbe k))
    (oamv1alpha2.Containers cw) (corev1.Containers (appsv1.PodSpec d)).
Proof.
  intros Hrun. apply packagedDeployment_returned in Hrun as (HF & _).
  eapply Forall2_impl; [exact HF|]. intros c k Hk.
  assert (Hpr : forall o,
    option_Forall2 probeCopied o (containerizedworkload.packageProbe <$> o)).
  { intros [p|]; constructor. apply packageProbe_copied. }
  open_packagedAs Hk ports Hports; simpl; by split.
Qed.

Lemma packagedDeployment_probes_witness :
  containerizedworkload.packagedDeployment samples2.webAndApi
  = Returned samples2.packagedWebAndApi
  /\ Forall2
       (fun c k =>
          option_Forall2 probeCopied
            (oamv1alpha2.c_LivenessProbe c) (corev1.c_LivenessProbe k)
          /\ option_Forall2 probeCopied
               (oamv1alpha2.c_ReadinessProbe c) (corev1.c_ReadinessProbe k))
       (oamv1alpha2.Containers samples2.webAndApi)
       (corev1.Containers (appsv1.PodSpec samples2.packagedWebAndApi)).
Proof.
  assert (Hrun : containerizedworkload.packagedDeployment samples2.webAndApi
                 = Returned samples2.packagedWebAndApi)
    by (vm_compute; reflexivity).
  split; [exact Hrun|].
  exact (packagedDeployment_probes samples2.webAndApi
           samples2.packagedWebAndApi Hrun).
Defined.

(** ** The modifier, whatever the outcome *)

Section ModifierOutcomes.
Context `{conv : UnstructuredConverter}.

Lemma framed_refl t : framed t t.
Proof. by repeat split. Qed.

Lemma patched_framed n t t' : patched n t t' -> framed t t'.
Proof.
  unfold patched, framed. case_decide as Hk.
  - intros (d & u & _ & _ & ->). by repeat split.
  - intros ->. by repeat split.
Qed.

(** The loop on a failing run: it stops at the first deployment the
    converter rejects; what came before is patched, the rest is as it was. *)
Lemma modifyTemplates_fails n todo done app app' e :
  workloadv1alpha1.ResourceTemplates app = done ++ todo ->
  containerizedworkload.modifyTemplates n (length done) todo app
    = (app', Some e) ->
  exists pre pre' bad post,
    todo = pre ++ bad :: post
    /\ workloadv1alpha1.ResourceTemplates app' = done ++ pre' ++ bad :: post
    /\ workloadv1alpha1.app_Meta app' = workloadv1alpha1.app_Meta app
    /\ Forall2 (patched n) pre pre'
    /\ kindOf bad = "Deployment"
    /\ conversionFails n bad e.
Proof.
  induction todo as [|t rest IH] in done, app |- *; simpl; intros Hts Hrun;
    [done|].
  assert (Hlen : forall x : workloadv1alpha1.KubernetesApplicationResourceTemplate,
             S (length done) = length (done ++ [x])).
  { intros x. rewrite length_app. simpl. lia. }
  destruct (decide (unstructured.GetKind (workloadv1alpha1.Template t)
                    = "Deployment")) as [Hk|Hk].
  - destruct (FromUnstructured _ appsv1.zero) as [d [e'|]] eqn:Hfrom.
    { injection Hrun as <- <-. exists [], [], t, rest.
      repeat split; try done. left. by rewrite Hfrom. }
    destruct (ToUnstructured _) as [u [e'|]] eqn:Hto.
    { injection Hrun as <- <-. exists [], [], t, rest.
      repeat split; try done. right. exists d. by rewrite Hto. }
    set (t' := workloadv1alpha1.setTemplate t {| unstructured.Object := u |}).
    rewrite (Hlen t') in Hrun.
    apply IH in Hrun as (pre & pre' & bad & post & -> & Hts' & Hm & HF & Hb & Hc).
    + exists (t :: pre), (t' :: pre'), bad, post.
      rewrite Hts', <- app_assoc. repeat split; try done.
      constructor; [|done].
      unfold patched, kindOf. rewrite decide_True by done. by exists d, u.
    + simpl. rewrite Hts.
      replace (length done) with (length done + 0) by lia.
      by rewrite alter_app_r, <- app_assoc.
  - rewrite (Hlen t) in Hrun.
    apply IH in Hrun as (pre & pre' & bad & post & -> & Hts' & Hm & HF & Hb & Hc).
    + exists (t :: pre), (t :: pre'), bad, post.
      rewrite Hts', <- app_assoc. repeat split; try done.
      constructor; [|done]. unfold patched, kindOf. by rewrite decide_False.
    + by rewrite Hts, <- app_assoc.
Qed.

(** X9.  When the manual-scaler modifier reports an error, it has stopped at
    a deployment fragment the converter could not decode or re-encode, and
    the error is the converter's.  The fragments before it stay patched (the
    run is not undone); that fragment and all after it are as they were. *)
Theorem manualScalerModifier_fails_midway app t n app' e :
  t_Spec t = ManualScalerSpec n ->
  containerizedworkload.manualScalerModifier app (ObjTrait t)
  = (app', Some e) ->
  exists pre pre' bad post,
    workloadv1alpha1.ResourceTemplates app = pre ++ bad :: post
    /\ workloadv1alpha1.ResourceTemplates app' = pre' ++ bad :: post
    /\ Forall2 (patched n) pre pre'
    /\ kindOf bad = "Deployment"
    /\ conversionFails n bad e
    /\ workloadv1alpha1.app_Meta app' = workloadv1alpha1.app_Meta app.
Proof.
  intros Hspec. unfold containerizedworkload.manualScalerModifier.
  rewrite Hspec. intros Hrun.
  apply (modifyTemplates_fails n _ [] app app' e) in Hrun
    as (pre & pre' & bad & post & Hts & Hts' & Hm & HF & Hb & Hc); [|done].
  by exists pre, pre', bad, post.
Qed.

(** X8.  Whatever the object and whatever the outcome, the modifier keeps
    the application's metadata and the number and order of its fragments;
    of a fragment it changes at most the document: metadata and secrets
    stay, and a fragment whose kind is not "Deployment" stays whole. *)
Theorem manualScalerModifier_frame app obj app' e :
  containerizedworkload.manualScalerModifier app obj = (app', e) ->
  workloadv1alpha1.app_Meta app' = workloadv1alpha1.app_Meta app
  /\ Forall2 framed
       (workloadv1alpha1.ResourceTemplates app)
       (workloadv1alpha1.ResourceTemplates app')
  /\ length (workloadv1alpha1.ResourceTemplates app')
     = length (workloadv1alpha1.ResourceTemplates app).
Proof.
  intros Hrun.
  assert (Hres : workloadv1alpha1.app_Meta app' = workloadv1alpha1.app_Meta app
                 /\ Forall2 framed
                      (workloadv1alpha1.ResourceTemplates app)
                      (workloadv1alpha1.ResourceTemplates app')).
  { assert (Hsame : forall l, Forall2 framed l l).
    { intros l. apply Forall_Forall2_diag, Forall_forall.
      intros; apply framed_refl. }
    unfold containerizedworkload.manualScalerModifier in Hrun.
    destruct obj as [cw|t|d]; try (injection Hrun as <- _; by split).
    destruct (t_Spec t) as [n|]; [|injection Hrun as <- _; by split].
    destruct e as [e|].
    - apply (modifyTemplates_fails n _ [] app app' e) in Hrun
        as (pre & pre' & bad & post & -> & Hts' & Hm & HF & _); [|done].
      simpl in Hts'. rewrite Hts'. split; [done|].
      apply Forall2_app; [|apply Hsame].
      eapply Forall2_impl; [exact HF|]. apply patched_framed.
    - apply (modifyTemplates_patches n _ [] app app') in Hrun
        as (ts' & Hts' & Hm & HF); [|done].
      simpl in Hts'. rewrite Hts'. split; [done|].
      eapply Forall2_impl; [exact HF|]. apply patched_framed. }
  destruct Hres as [Hm HF]. split; [done|]. split; [done|].
  symmetry. by eapply Forall2_length.
Qed.

Lemma modifyTemplates_skip n i pre rest app :
  Forall (fun t => kindOf t <> "Deployment") pre ->
  containerizedworkload.modifyTemplates n i (pre ++ rest) app
  = containerizedworkload.modifyTemplates n (i + length pre) rest app.
Proof.
  intros HF. induction HF as [|t pre Ht _ IH] in i |- *; simpl.
  - by rewrite Nat.add_0_r.
  - unfold kindOf in Ht. rewrite decide_False by done.
    rewrite IH. f_equal. lia.
Qed.

(** X10.  The generic packager either fails with the converter's error and
    leaves the application as it was, or appends exactly one fragment, the
    encoded object, behind the existing ones: every existing fragment keeps
    its position and the new one sits at the old length. *)
Theorem genericPackager_outcome app obj app' e :
  workload.genericPackager app obj = (app', e) ->
  e = snd (ToUnstructured obj)
  /\ match e with
     | Some _ => app' = app
     | None =>
         workloadv1alpha1.app_Meta app' = workloadv1alpha1.app_Meta app
         /\ length (workloadv1alpha1.ResourceTemplates app')
            = S (length (workloadv1alpha1.ResourceTemplates app))
         /\ (forall i rt,
               workloadv1alpha1.ResourceTemplates app !! i = Some rt ->
               workloadv1alpha1.ResourceTemplates app' !! i = Some rt)
         /\ exists rt,
              workloadv1alpha1.ResourceTemplates app'
                !! length (workloadv1alpha1.ResourceTemplates app) = Some rt
              /\ unstructured.Object (workloadv1alpha1.Template rt)
                 = fst (ToUnstructured obj)
              /\ workloadv1alpha1.rt_Meta rt = emptyMeta
              /\ workloadv1alpha1.Secrets rt = []
     end.
Proof.
  unfold workload.genericPackager.
  destruct (ToUnstructured obj) as [u [err|]]; intros [= <- <-]; simpl;
    [done|].
  split; [done|]. split; [done|].
  split; [rewrite length_app; simpl; lia|].
  split; [intros i rt Hi; by apply lookup_app_l_Some|].
  eexists. split; [by rewrite lookup_app_r, Nat.sub_diag by lia|done].
Qed.

(** X11.  Packaging a deployment into an application without deployments
    and then scaling: the modifier leaves the old fragments alone and
    replaces exactly the fragment the packager appended by its re-encoding
    with the trait's replica count. *)
Theorem package_then_scale app obj app1 t n d u' :
  Forall (fun rt => kindOf rt <> "Deployment")
    (workloadv1alpha1.ResourceTemplates app) ->
  workload.genericPackager app obj = (app1, None) ->
  unstructured.GetKind {| unstructured.Object := fst (ToUnstructured obj) |}
  = "Deployment" ->
  FromUnstructured (fst (ToUnstructured obj)) appsv1.zero = (d, None) ->
  ToUnstructured (ObjDeployment (appsv1.setReplicas d (Some n)))
  = (u', None) ->
  t_Spec t = ManualScalerSpec n ->
  containerizedworkload.manualScalerModifier app1 (ObjTrait t)
  = (workloadv1alpha1.setResourceTemplates app
       (workloadv1alpha1.ResourceTemplates app
          ++ [ {| workloadv1alpha1.rt_Meta := emptyMeta;
                  workloadv1alpha1.Template :=
                    {| unstructured.Object := u' |};
                  workloadv1alpha1.Secrets := [] |} ]), None).
Proof.
  intros HF Hpack Hkind Hfrom Hto Hspec.
  unfold workload.genericPackager in Hpack.
  destruct (ToUnstructured obj) as [u [err|]]; [done|].
  injection Hpack as <-. simpl in Hkind, Hfrom.
  unfold containerizedworkload.manualScalerModifier. rewrite Hspec.
  cbn [workloadv1alpha1.ResourceTemplates workloadv1alpha1.setResourceTemplates].
  rewrite (modifyTemplates_skip n 0 _ _ _ HF).
  cbn [containerizedworkload.modifyTemplates workloadv1alpha1.Template
       unstructured.Object].
  rewrite decide_True by exact Hkind.
  rewrite Hfrom, Hto.
  cbn [workloadv1alpha1.ResourceTemplates workloadv1alpha1.setResourceTemplates
       workloadv1alpha1.app_Meta Nat.add].
  unfold workloadv1alpha1.setResourceTemplates. simpl.
  replace (length (workloadv1alpha1.ResourceTemplates app))
    with (length (workloadv1alpha1.ResourceTemplates app) + 0) by lia.
  by rewrite alter_app_r.
Qed.

End ModifierOutcomes.

Lemma manualScalerModifier_fails_midway_witness :
  t_Spec samples.scaler = ManualScalerSpec 3
  /\ containerizedworkload.manualScalerModifier
       (conv := samples2.strictConverter) samples2.brokenSecond
       (ObjTrait samples.scaler)
     = (samples2.brokenSecondAfter, Some (ErrorString "no spec"))
  /\ exists pre pre' bad post,
       workloadv1alpha1.ResourceTemplates samples2.brokenSecond
       = pre ++ bad :: post
       /\ workloadv1alpha1.ResourceTemplates samples2.brokenSecondAfter
          = pre' ++ bad :: post
       /\ Forall2 (patched (conv := samples2.strictConverter) 3) pre pre'
       /\ kindOf bad = "Deployment"
       /\ conversionFails (conv := samples2.strictConverter) 3 bad
            (ErrorString "no spec")
       /\ workloadv1alpha1.app_Meta samples2.brokenSecondAfter
          = workloadv1alpha1.app_Meta samples2.brokenSecond.
Proof.
  assert (Hrun :
    containerizedworkload.manualScalerModifier
      (conv := samples2.strictConverter) samples2.brokenSecond
      (ObjTrait samples.scaler)
    = (samples2.brokenSecondAfter, Some (ErrorString "no spec")))
    by (vm_compute; reflexivity).
  split; [reflexivity|]. split; [exact Hrun|].
  exact (manualScalerModifier_fails_midway
           (conv := samples2.strictConverter) samples2.brokenSecond
           samples.scaler 3 samples2.brokenSecondAfter
           (ErrorString "no spec") eq_refl Hrun).
Defined.

Lemma manualScalerModifier_frame_witness :
  containerizedworkload.manualScalerModifier
    (conv := samples2.strictConverter) samples2.brokenSecond
    (ObjTrait samples.scaler)
  = (samples2.brokenSecondAfter, Some (ErrorString "no spec"))
  /\ Forall2 framed
       (workloadv1alpha1.ResourceTemplates samples2.brokenSecond)
       (workloadv1alpha1.ResourceTemplates samples2.brokenSecondAfter).
Proof.
  assert (Hrun :
    containerizedworkload.manualScalerModifier
      (conv := samples2.strictConverter) samples2.brokenSecond
      (ObjTrait samples.scaler)
    = (samples2.brokenSecondAfter, Some (ErrorString "no spec")))
    by (vm_compute; reflexivity).
  split; [exact Hrun|].
  exact (proj1 (proj2 (manualScalerModifier_frame
                         (conv := samples2.strictConverter)
                         samples2.brokenSecond (ObjTrait samples.scaler)
                         samples2.brokenSecondAfter _ Hrun))).
Defined.

Lemma genericPackager_outcome_witness :
  workload.genericPackager (conv := samples.converter) samples.onlyService
    (ObjDeployment samples2.webDeployment)
  = (samples2.serviceAndDeployment 1, None)
  /\ length (workloadv1alpha1.ResourceTemplates
               (samples2.serviceAndDeployment 1))
     = S (length (workloadv1alpha1.ResourceTemplates samples.onlyService)).
Proof.
  assert (Hrun :
    workload.genericPackager (conv := samples.converter) samples.onlyService
      (ObjDeployment samples2.webDeployment)
    = (samples2.serviceAndDeployment 1, None)) by (vm_compute; reflexivity).
  split; [exact Hrun|].
  exact (proj1 (proj2 (proj2 (genericPackager_outcome
                                (conv := samples.converter)
                                samples.onlyService
                                (ObjDeployment samples2.webDeployment)
                                (samples2.serviceAndDeployment 1) None
                                Hrun)))).
Defined.

Lemma package_then_scale_witness :
  Forall (fun rt => kindOf rt <> "Deployment")
    (workloadv1alpha1.ResourceTemplates samples.onlyService)
  /\ workload.genericPackager (conv := samples.converter) samples.onlyService
       (ObjDeployment samples2.webDeployment)
     = (samples2.serviceAndDeployment 1, None)
  /\ t_Spec samples.scaler = ManualScalerSpec 3
  /\ containerizedworkload.manualScalerModifier (conv := samples.converter)
       (samples2.serviceAndDeployment 1) (ObjTrait samples.scaler)
     = (samples2.serviceAndDeployment 3, None).
Proof.
  assert (Hk : Forall (fun rt => kindOf rt <> "Deployment")
                 (workloadv1alpha1.ResourceTemplates samples.onlyService)).
  { repeat constructor. vm_compute. discriminate. }
  assert (Hrun :
    workload.genericPackager (conv := samples.converter) samples.onlyService
      (ObjDeployment samples2.webDeployment)
    = (samples2.serviceAndDeployment 1, None)) by (vm_compute; reflexivity).
  split; [exact Hk|]. split; [exact Hrun|]. split; [reflexivity|].
  exact (package_then_scale (conv := samples.converter) samples.onlyService
           (ObjDeployment samples2.webDeployment)
           (samples2.serviceAndDeployment 1) samples.scaler 3
           samples2.webDeployment
           (unstructured.Object (samples.deployment 3))
           Hk Hrun eq_refl eq_refl eq_refl eq_refl).
Defined.

(** ** The reconciler, course by course *)

Lemma setExisting_other new cs ex ct :
  ct <> v1alpha1.Type_ new ->
  v1alpha1.GetCondition (fst (v1alpha1.setExisting new cs ex)) ct
  = v1alpha1.GetCondition cs ct.
Proof.
  intros Hct. induction cs as [|c cs IH] in ex |- *; simpl; [done|].
  destruct (decide (v1alpha1.Type_ c = v1alpha1.Type_ new)) as [Hty|Hty].
  - specialize (IH true).
    destruct (v1alpha1.setExisting new cs true) as [rest' ex'].
    simpl in IH.
    destruct (decide (c = new)); simpl; rewrite IH;
      rewrite !decide_False by congruence; done.
  - specialize (IH ex).
    destruct (v1alpha1.setExisting new cs ex) as [rest' ex'].
    simpl in *. by rewrite IH.
Qed.

(** [SetConditions] with one condition leaves the conditions of every other
    type as they were. *)
Lemma GetCondition_SetConditions_other s c ct :
  ct <> v1alpha1.Type_ c ->
  v1alpha1.GetCondition (v1alpha1.SetConditions s [c]) ct
  = v1alpha1.GetCondition s ct.
Proof.
  intros Hct. unfold v1alpha1.SetConditions. simpl.
  unfold v1alpha1.setCondition.
  pose proof (setExisting_other c s false ct Hct) as Ho.
  destruct (v1alpha1.setExisting c s false) as [cs ex]. simpl in Ho.
  destruct ex; [done|]. rewrite <- Ho. clear Ho.
  induction cs as [|x cs IH]; simpl.
  - by rewrite decide_False.
  - by rewrite IH.
Qed.

Section ReconcilerCourses.
Context {World : Type}.
Implicit Types (r : trait.Reconciler World) (w : World).

(** Splits a reconcile into its five courses; [fetched_cases] starts after
    the trait has been fetched. *)
Ltac unfold_courses :=
  unfold trait.failWith;
  try (match goal with
       | |- context [trait.StatusUpdate ?c ?w ?t] =>
           let wu := fresh "wu" in
           let uerr := fresh "uerr" in
           destruct (trait.StatusUpdate c w t) as [wu uerr]
       end);
  cbn [trait.result trait.err trait.calls trait.events trait.world
       trait.RequeueAfter trait.Requeue trait.requeueAfter trait.Result_zero
       Datatypes.app fmap list_fmap stepOf isNil].

Ltac fetched_cases r w1 t :=
  let w2 := fresh "w2" in
  let app := fresh "app" in
  let aerr := fresh "aerr" in
  let Hi := fresh "Hi" in
  destruct (trait.GetApp (trait.client r) w1 (trait.packageKey t)
              workloadv1alpha1.zero) as [[w2 app] aerr];
  destruct (resource.IgnoreNotFound aerr) eqn:Hi;
  [destruct aerr; [|discriminate Hi]
  |destruct (trait.modifier r app (ObjTrait t)) as [? [?|]];
   [|match goal with
     | |- context [trait.Apply ?c ?w' ?a] =>
         destruct (trait.Apply c w' a) as [? [?|]]
     end]];
  unfold_courses; rewrite ?Hi.

Ltac run_cases r w req :=
  let w1 := fresh "w1" in
  let t := fresh "t" in
  unfold trait.Reconcile;
  destruct (trait.GetTrait (trait.client r) w req (trait.newTrait r))
    as [[w1 t] [?|]];
  [unfold_courses|fetched_cases r w1 t].

(** X12.  Every reconcile takes one of five courses: the trait fetch
    fails; or the trait is fetched and the application fetch, the
    modification or the apply fails and the status is written; or all go
    through and the status is written.  So the application is never fetched
    without the trait, never modified after a failed fetch, never applied
    after a failed modification, and the status is written at most once, as
    the last call. *)
Theorem Reconcile_courses r w req :
  stepOf <$> trait.calls (trait.Reconcile r w req) ∈ courses.
Proof.
  run_cases r w req; unfold courses; simpl;
    apply list_elem_of_In; simpl; eauto 10.
Qed.


(** X14.  The requeue flag is never set, and the delay tells the course:
    none when the trait fetch failed, sixty seconds when the apply went
    through, thirty seconds in every other case. *)
Theorem Reconcile_requeue r w req :
  let run := trait.Reconcile r w req in
  let steps := stepOf <$> trait.calls run in
  trait.Requeue (trait.result run) = false
  /\ ((trait.RequeueAfter (trait.result run) = 0%Z
       /\ steps = [StepGetTrait false])
      \/ (trait.RequeueAfter (trait.result run) = (60 * trait.Second)%Z
          /\ StepGetTrait true ∈ steps /\ StepApply true ∈ steps)
      \/ (trait.RequeueAfter (trait.result run) = (30 * trait.Second)%Z
          /\ StepGetTrait true ∈ steps /\ StepApply true ∉ steps)).
Proof.
  cbv zeta. run_cases r w req; (split; [done|]); simpl.
  - left. done.
  - right; right. split; [done|]. rewrite !elem_of_cons, !elem_of_nil.
    split; [by left|]. intros H. by repeat destruct H as [H|H].
  - right; right. split; [done|]. rewrite !elem_of_cons, !elem_of_nil.
    split; [by left|]. intros H. by repeat destruct H as [H|H].
  - right; right. split; [done|]. rewrite !elem_of_cons, !elem_of_nil.
    split; [by left|]. intros H. by repeat destruct H as [H|H].
  - right; left. split; [done|]. rewrite !elem_of_cons. split; eauto 10.
Qed.

(** X15.  What is applied is the modifier's result under the ownership
    stamp: named after the trait's workload reference, in the trait's
    namespace, with the trait's owner references, and with the resource
    templates as the modifier returned them. *)
Theorem Reconcile_applies_stamped r w req w1 t w2 app aerr :
  trait.GetTrait (trait.client r) w req (trait.newTrait r) = (w1, t, None) ->
  trait.GetApp (trait.client r) w1 (trait.packageKey t)
    workloadv1alpha1.zero = (w2, app, aerr) ->
  forall a perr,
    trait.CallApply a perr ∈ trait.calls (trait.Reconcile r w req) ->
    a = trait.stamp (fst (trait.modifier r app (ObjTrait t))) t
    /\ Name (workloadv1alpha1.app_Meta a) = ref_Name (t_WorkloadRef t)
    /\ Namespace (workloadv1alpha1.app_Meta a) = Namespace (t_Meta t)
    /\ OwnerReferences (workloadv1alpha1.app_Meta a)
       = OwnerReferences (t_Meta t)
    /\ workloadv1alpha1.ResourceTemplates a
       = workloadv1alpha1.ResourceTemplates
           (fst (trait.modifier r app (ObjTrait t))).
Proof.
  intros Ht0 Ha0 a perr. unfold trait.Reconcile. rewrite Ht0, Ha0.
  assert (Hgoal : forall cs,
    trait.CallApply a perr ∈ cs ->
    Forall (fun c => forall a' p', c = trait.CallApply a' p' ->
              a' = trait.stamp (fst (trait.modifier r app (ObjTrait t))) t)
      cs ->
    a = trait.stamp (fst (trait.modifier r app (ObjTrait t))) t).
  { intros cs Hin HF. rewrite Forall_forall in HF. by eapply HF. }
  intros Hin.
  assert (Ha : a = trait.stamp (fst (trait.modifier r app (ObjTrait t))) t).
  { eapply Hgoal; [exact Hin|]. clear Hin Hgoal.
    destruct (resource.IgnoreNotFound aerr) as [ie|] eqn:Hi;
      [destruct aerr as [ae|]; [|discriminate Hi]|];
      [|destruct (trait.modifier r app (ObjTrait t)) as [app' [me|]] eqn:Hm;
        [|destruct (trait.Apply (trait.client r) w2 (trait.stamp app' t))
            as [w3 [pe|]] eqn:Hp]];
      unfold trait.failWith;
      try (destruct (trait.StatusUpdate (trait.client r) _ _)
             as [wu uerr] eqn:Hu);
      cbn [trait.calls Datatypes.app]; repeat constructor;
      intros a' p' [=]; by subst. }
  by subst a.
Qed.

(** X16.  The object handed to the status write is the fetched trait with
    its Synced condition set anew: metadata, workload reference and spec
    are the fetched ones, and the condition of every other type is as
    fetched. *)
Theorem Reconcile_status_frame r w req w1 t :
  trait.GetTrait (trait.client r) w req (trait.newTrait r) = (w1, t, None) ->
  forall t' uerr,
    trait.CallStatusUpdate t' uerr ∈ trait.calls (trait.Reconcile r w req) ->
    t_Meta t' = t_Meta t
    /\ t_WorkloadRef t' = t_WorkloadRef t
    /\ t_Spec t' = t_Spec t
    /\ (forall ct, ct <> v1alpha1.TypeSynced ->
          Trait_GetCondition t' ct = Trait_GetCondition t ct)
    /\ v1alpha1.Type_ (Trait_GetCondition t' v1alpha1.TypeSynced)
       = v1alpha1.TypeSynced.
Proof.
  intros Ht0 t' uerr Hin.
  assert (Hset : exists c, v1alpha1.Type_ c = v1alpha1.TypeSynced
                           /\ t' = Trait_SetConditions t [c]).
  { revert Hin. unfold trait.Reconcile. rewrite Ht0. cbv beta iota zeta.
    fetched_cases r w1 t;
      rewrite !elem_of_cons, elem_of_nil; intros H;
      repeat (destruct H as [H|H]; try discriminate H); try done;
      injection H as -> _;
      (eexists; split; [|reflexivity]; reflexivity). }
  destruct Hset as (c & Hc & ->).
  pose proof (GetCondition_SetConditions (t_Status t) c) as Hg.
  rewrite Hc in Hg.
  unfold Trait_GetCondition, Trait_SetConditions.
  cbn [t_Meta t_WorkloadRef t_Spec t_Status].
  repeat split.
  - intros ct Hct. apply GetCondition_SetConditions_other. congruence.
  - by rewrite Hg.
Qed.

(** X17.  No event is recorded when the trait fetch fails; otherwise
    exactly one is: the normal event "PackageModified" on the course that
    ends with the long wait, and on each failing course a warning whose
    reason names the step that failed and whose message is the text of
    that step's error. *)
Theorem Reconcile_events r w req :
  let run := trait.Reconcile r w req in
  (trait.events run = []
   /\ stepOf <$> trait.calls run = [StepGetTrait false])
  \/ (trait.events run
      = [trait.Normal trait.reasonTraitModify
           "Successfully modifed workload package"]
      /\ trait.result run = trait.requeueAfter trait.longWait)
  \/ (exists reason e,
        trait.events run = [trait.Warning reason e]
        /\ trait.result run = trait.requeueAfter trait.shortWait
        /\ ((reason = trait.reasonCannotGetPackage
             /\ exists key, trait.CallGetApp key (Some e) ∈ trait.calls run)
            \/ (reason = trait.reasonCannotModifyPackage
                /\ exists a o,
                     trait.CallModify a o (Some e) ∈ trait.calls run)
            \/ (reason = trait.reasonCannotApplyModification
                /\ exists a,
                     trait.CallApply a (Some e) ∈ trait.calls run))).
Proof.
  cbv zeta. run_cases r w req.
  - left. done.
  - right; right. eexists _, _. split; [done|]. split; [done|].
    left. split; [done|]. eexists. rewrite !elem_of_cons. eauto.
  - right; right. eexists _, _. split; [done|]. split; [done|].
    right; left. split; [done|]. eexists _, _. rewrite !elem_of_cons. eauto.
  - right; right. eexists _, _. split; [done|]. split; [done|].
    right; right. split; [done|]. eexists. rewrite !elem_of_cons. eauto 10.
  - right; left. done.
Qed.

End ReconcilerCourses.

(** ** The reconciler with the manual-scaler modifier, and as constructed *)

Section ScalerReconciler.
Context {World : Type} `{conv : UnstructuredConverter}.
Implicit Types (r : trait.Reconciler World) (w : World).

(** X18.  A reconciler that runs the manual-scaler modifier on a trait that
    is not a manual scaler applies nothing: it writes the error condition
    with the message "cannot apply trait modification: trait is not a
    manual scaler" and asks for the short wait. *)
Theorem Reconcile_wrong_trait_variant r w req w1 t w2 app aerr :
  trait.modifier r = containerizedworkload.manualScalerModifier ->
  trait.GetTrait (trait.client r) w req (trait.newTrait r) = (w1, t, None) ->
  t_Spec t = FakeSpec ->
  trait.GetApp (trait.client r) w1 (trait.packageKey t)
    workloadv1alpha1.zero = (w2, app, aerr) ->
  resource.IgnoreNotFound aerr = None ->
  let run := trait.Reconcile r w req in
  trait.result run = trait.requeueAfter trait.shortWait
  /\ Forall (fun c => stepOf c <> StepApply true /\ stepOf c <> StepApply false)
       (trait.calls run)
  /\ exists t' uerr,
       last (trait.calls run) = Some (trait.CallStatusUpdate t' uerr)
       /\ v1alpha1.Reason (Trait_GetCondition t' v1alpha1.TypeSynced)
          = v1alpha1.ReasonReconcileError
       /\ v1alpha1.Message (Trait_GetCondition t' v1alpha1.TypeSynced)
          = "cannot apply trait modification: trait is not a manual scaler".
Proof.
  intros Hmod Ht Hspec Ha Hi. cbv zeta. unfold trait.Reconcile.
  rewrite Ht, Ha, Hi, Hmod.
  unfold containerizedworkload.manualScalerModifier. rewrite Hspec.
  cbv beta iota zeta. unfold errors.New, trait.failWith.
  destruct (trait.StatusUpdate _ _ _) as [wu uerr].
  cbn [trait.result trait.calls Datatypes.app].
  split; [done|]. split; [by repeat constructor|].
  eexists _, uerr. split; [reflexivity|].
  unfold Trait_GetCondition, Trait_SetConditions. cbn [t_Status].
  rewrite (GetCondition_SetConditions _
             (v1alpha1.ReconcileError
                (WithMessage
                   (ErrorString containerizedworkload.errNotManualScalerTrait)
                   trait.errTraitModify))).
  split; reflexivity.
Qed.


(** The options for logger, recorder and modifier keep the client and the
    maker of fresh traits. *)
Lemma NewReconciler_keeps (c : trait.Client World) nt os :
  Forall (fun o => o = trait_options.WithLogger
                   \/ o = trait_options.WithRecorder
                   \/ exists m, o = trait_options.WithModifier m) os ->
  trait.client (trait_options.NewReconciler c nt os) = c
  /\ trait.newTrait (trait_options.NewReconciler c nt os) = nt.
Proof.
  unfold trait_options.NewReconciler.
  generalize trait.noopModifier as m0.
  intros m0 HF. induction HF as [|o os Ho _ IH] in m0 |- *; simpl; [done|].
  destruct Ho as [->|[->|[m ->]]]; apply IH.
Qed.

Lemma NewReconciler_without_modifier (c : trait.Client World) nt os :
  Forall (fun o => o = trait_options.WithLogger
                   \/ o = trait_options.WithRecorder) os ->
  trait_options.NewReconciler c nt os
  = {| trait.client := c; trait.modifier := trait.noopModifier;
       trait.newTrait := nt |}.
Proof.
  unfold trait_options.NewReconciler.
  intros HF. induction HF as [|o os Ho _ IH]; simpl; [done|].
  by destruct Ho as [->| ->].
Qed.

(** X20.  A reconciler constructed without a modifier option modifies
    nothing: when the fetches leave no error, what it applies is the fetched
    application under the ownership stamp. *)
Theorem NewReconciler_default_applies_fetched
  (c : trait.Client World) nt os w req w1 t w2 app aerr :
  Forall (fun o => o = trait_options.WithLogger
                   \/ o = trait_options.WithRecorder) os ->
  trait.GetTrait c w req nt = (w1, t, None) ->
  trait.GetApp c w1 (trait.packageKey t) workloadv1alpha1.zero
  = (w2, app, aerr) ->
  resource.IgnoreNotFound aerr = None ->
  exists perr,
    trait.CallApply (trait.stamp app t) perr
    ∈ trait.calls
        (trait.Reconcile (trait_options.NewReconciler c nt os) w req).
Proof.
  intros Hos Ht Ha Hi. rewrite (NewReconciler_without_modifier c nt os Hos).
  unfold trait.Reconcile. cbn [trait.client trait.newTrait trait.modifier].
  rewrite Ht, Ha, Hi. unfold trait.noopModifier. cbv beta iota zeta.
  destruct (trait.Apply _ _ _) as [w3 perr]. exists perr.
  destruct perr as [pe|]; unfold trait.failWith;
    destruct (trait.StatusUpdate _ _ _) as [wu uerr];
    cbn [trait.calls Datatypes.app]; rewrite !elem_of_cons; eauto 10.
Qed.

(** X21.  Of several modifier options the last one wins, wherever the
    logger and recorder options stand; client and fresh-trait maker are the
    manager's. *)
Theorem NewReconciler_last_modifier_wins
  (c : trait.Client World) nt os m os' :
  Forall (fun o => o = trait_options.WithLogger
                   \/ o = trait_options.WithRecorder
                   \/ exists m', o = trait_options.WithModifier m') os ->
  Forall (fun o => o = trait_options.WithLogger
                   \/ o = trait_options.WithRecorder) os' ->
  trait_options.NewReconciler c nt
    (os ++ trait_options.WithModifier m :: os')
  = {| trait.client := c; trait.modifier := m; trait.newTrait := nt |}.
Proof.
  intros Hos Hos'.
  destruct (NewReconciler_keeps c nt os Hos) as [Hc Hn].
  unfold trait_options.NewReconciler in *. rewrite foldl_app.
  cbn [foldl].
  match type of Hc with trait.client ?x = _ => set (r0 := x) in * end.
  replace (trait_options.WithModifier m r0)
    with {| trait.client := c; trait.modifier := m; trait.newTrait := nt |}
    by (unfold trait_options.WithModifier; by rewrite Hc, Hn).
  clearbody r0.
  induction Hos' as [|o os' Ho _ IH]; simpl; [done|].
  by destruct Ho as [->| ->].
Qed.

End ScalerReconciler.

(** ** The further reconciler properties on the worked inputs *)

Lemma Reconcile_applies_stamped_witness :
  trait.GetTrait (trait.client samples.healthy) tt samples.request
    (trait.newTrait samples.healthy) = (tt, samples.scaler, None)
  /\ trait.GetApp (trait.client samples.healthy) tt
       (trait.packageKey samples.scaler) workloadv1alpha1.zero
     = (tt, samples.twoDeployments, None)
  /\ trait.CallApply
       (trait.stamp samples.twoDeploymentsScaled samples.scaler) None
     ∈ trait.calls (trait.Reconcile samples.healthy tt samples.request)
  /\ Name (workloadv1alpha1.app_Meta
             (trait.stamp samples.twoDeploymentsScaled samples.scaler))
     = ref_Name (t_WorkloadRef samples.scaler).
Proof.
  assert (Hin : trait.CallApply
                  (trait.stamp samples.twoDeploymentsScaled samples.scaler)
                  None
                ∈ trait.calls
                    (trait.Reconcile samples.healthy tt samples.request)).
  { vm_compute. do 3 apply list_elem_of_further. apply list_elem_of_here. }
  split; [reflexivity|]. split; [reflexivity|]. split; [exact Hin|].
  exact (proj1 (proj2 (Reconcile_applies_stamped samples.healthy tt
                         samples.request tt samples.scaler tt
                         samples.twoDeployments None eq_refl eq_refl
                         _ _ Hin))).
Defined.

Lemma Reconcile_status_frame_witness :
  trait.GetTrait (trait.client samples2.wrongVariant) tt samples.request
    (trait.newTrait samples2.wrongVariant) = (tt, samples2.fakeTrait, None)
  /\ (exists t',
        trait.CallStatusUpdate t' None
        ∈ trait.calls (trait.Reconcile samples2.wrongVariant tt
                         samples.request)
        /\ t_Meta t' = t_Meta samples2.fakeTrait
        /\ Trait_GetCondition t' v1alpha1.TypeReady
           = Trait_GetCondition samples2.fakeTrait v1alpha1.TypeReady).
Proof.
  split; [reflexivity|].
  assert (Hin : trait.CallStatusUpdate
                  (Trait_SetConditions samples2.fakeTrait
                     [v1alpha1.ReconcileError
                        (WithMessage
                           (ErrorString
                              containerizedworkload.errNotManualScalerTrait)
                           trait.errTraitModify)]) None
                ∈ trait.calls
                    (trait.Reconcile samples2.wrongVariant tt
                       samples.request)).
  { vm_compute. do 3 apply list_elem_of_further. apply list_elem_of_here. }
  eexists. split; [exact Hin|].
  pose proof (Reconcile_status_frame samples2.wrongVariant tt samples.request
                tt samples2.fakeTrait eq_refl _ _ Hin)
    as (Hm & _ & _ & Hc & _).
  split; [exact Hm|]. apply Hc. discriminate.
Defined.

Lemma Reconcile_wrong_trait_variant_witness :
  trait.modifier samples2.wrongVariant
  = containerizedworkload.manualScalerModifier (conv := samples.converter)
  /\ trait.GetTrait (trait.client samples2.wrongVariant) tt samples.request
       (trait.newTrait samples2.wrongVariant) = (tt, samples2.fakeTrait, None)
  /\ t_Spec samples2.fakeTrait = FakeSpec
  /\ trait.GetApp (trait.client samples2.wrongVariant) tt
       (trait.packageKey samples2.fakeTrait) workloadv1alpha1.zero
     = (tt, samples.onlyService, None)
  /\ resource.IgnoreNotFound None = None
  /\ trait.result (trait.Reconcile samples2.wrongVariant tt samples.request)
     = trait.requeueAfter trait.shortWait.
Proof.
  repeat (split; [reflexivity|]).
  exact (proj1 (Reconcile_wrong_trait_variant (conv := samples.converter)
                  samples2.wrongVariant tt samples.request tt
                  samples2.fakeTrait tt samples.onlyService None
                  eq_refl eq_refl eq_refl eq_refl eq_refl)).
Defined.


Lemma NewReconciler_default_applies_fetched_witness :
  Forall (fun o => o = trait_options.WithLogger (World := unit)
                   \/ o = trait_options.WithRecorder)
    [trait_options.WithLogger]
  /\ trait.GetTrait (trait.client samples.healthy) tt samples.request
       (trait.newTrait samples.healthy) = (tt, samples.scaler, None)
  /\ trait.GetApp (trait.client samples.healthy) tt
       (trait.packageKey samples.scaler) workloadv1alpha1.zero
     = (tt, samples.twoDeployments, None)
  /\ resource.IgnoreNotFound None = None
  /\ exists perr,
       trait.CallApply (trait.stamp samples.twoDeployments samples.scaler)
         perr
       ∈ trait.calls (trait.Reconcile samples2.unconfigured tt
                        samples.request).
Proof.
  assert (Hos : Forall (fun o => o = trait_options.WithLogger (World := unit)
                                 \/ o = trait_options.WithRecorder)
                  [trait_options.WithLogger]).
  { repeat constructor. }
  split; [exact Hos|]. repeat (split; [reflexivity|]).
  exact (NewReconciler_default_applies_fetched
           (trait.client samples.healthy) (trait.newTrait samples.healthy)
           [trait_options.WithLogger] tt samples.request tt samples.scaler
           tt samples.twoDeployments None Hos eq_refl eq_refl eq_refl).
Defined.

Lemma NewReconciler_last_modifier_wins_witness :
  Forall (fun o => o = trait_options.WithLogger (World := unit)
                   \/ o = trait_options.WithRecorder
                   \/ exists m', o = trait_options.WithModifier m')
    [trait_options.WithModifier trait.noopModifier; trait_options.WithLogger]
  /\ Forall (fun o => o = trait_options.WithLogger (World := unit)
                      \/ o = trait_options.WithRecorder)
       [trait_options.WithRecorder]
  /\ trait_options.NewReconciler (trait.client samples.healthy)
       (trait.newTrait samples.healthy)
       ([trait_options.WithModifier trait.noopModifier;
         trait_options.WithLogger]
        ++ trait_options.WithModifier samples.manualScaler
           :: [trait_options.WithRecorder])
     = {| trait.client := trait.client samples.healthy;
          trait.modifier := samples.manualScaler;
          trait.newTrait := trait.newTrait samples.healthy |}.
Proof.
  assert (Hos : Forall (fun o => o = trait_options.WithLogger (World := unit)
                                 \/ o = trait_options.WithRecorder
                                 \/ exists m',
                                      o = trait_options.WithModifier m')
                  [trait_options.WithModifier trait.noopModifier;
                   trait_options.WithLogger]).
  { constructor; [right; right; by eexists|].
    constructor; [by left|]. constructor. }
  assert (Hos' : Forall (fun o => o = trait_options.WithLogger (World := unit)
                                  \/ o = trait_options.WithRecorder)
                   [trait_options.WithRecorder]).
  { repeat constructor; eauto. }
  split; [exact Hos|]. split; [exact Hos'|].
  exact (NewReconciler_last_modifier_wins (trait.client samples.healthy)
           (trait.newTrait samples.healthy) _ samples.manualScaler _
           Hos Hos').
Defined.
